(** * embedder.py: text -> embedding -> persisted record

    A shallow embedding of [src/embedder.py].  The script drives three
    collaborators it does not implement: the sentence-transformer model, the
    Weaviate client and [uuid.uuid4].  Their answers are the fields of an
    environment [Env]; the calls the script issues, in order, are recorded in
    the [trace] of a [World], next to the state of the store.  Python
    exceptions are explicit: a computation is a function from the world to a
    [result] and the world it leaves behind. *)

From Stdlib Require Import Floats.
From stdpp Require Import gmap strings list fin_maps pretty.

Open Scope string_scope.
Open Scope list_scope.

(** ** Values exchanged with the collaborators *)

(** [embedding.tolist()]: a list of Python floats. *)
Definition vector := list float.

(** [weaviate.classes.config.DataType], the members a text schema can name. *)
Inductive DataType := TEXT | INT | NUMBER | BOOL.

(** [Configure.Vectorizer.*]: [VectorizerNone] is [Configure.Vectorizer.none()],
    the store computes no vector of its own. *)
Inductive Vectorizer := VectorizerNone | VectorizerModule (module : string).

Record Property := {
  prop_name : string;
  data_type : DataType;
  prop_description : string;
}.

(** The keyword arguments of [client.collections.create]. *)
Record CollectionConfig := {
  name : string;
  description : string;
  vectorizer_config : Vectorizer;
  properties : list Property;
}.

(** What an insert carries: the [properties] dict and the [vector]. *)
Record DataObject := {
  obj_properties : gmap string string;
  obj_vector : vector;
}.

Record Collection := {
  config : CollectionConfig;
  objects : list DataObject;
}.

(** The lines the script prints. *)
Inductive message :=
| MsgCloudNotWorking
| MsgCreatedCollection
| MsgCollectionExists
| MsgStoredText (text_id : string)
| MsgStoredBatch (n : nat)
| MsgSingleStored (single_id : string)
| MsgBatchStored (batch_ids : list string)
| MsgConnectionClosed.

(** Every call the script issues to a collaborator. *)
Inductive call :=
| LoadModel (model_name : string)
| Encode (model : string) (text : string)
| EncodeBatch (model : string) (texts : list string)
| Uuid4
| Connect (cluster_url api_key : string)
| CollectionsExists (coll : string)
| CollectionsCreate (cfg : CollectionConfig)
| CollectionsGet (coll : string)
| DataInsert (coll : string) (obj : DataObject)
| DataInsertMany (coll : string) (objs : list DataObject)
| ClientClose
| Print (m : message).

(** The exceptions that can cross the script.  The first four are named after
    the collaborator call that raised them (model, connection, collection,
    insert); [AttributeError] is Python's own, for an attribute never set. *)
Inductive exn :=
| ModelError
| ConfigurationError
| SchemaError
| WriteError
| AttributeError (attr : string).

Inductive result (A : Type) :=
| Ok (a : A)
| Raise (e : exn).
Arguments Ok {A} a.
Arguments Raise {A} e.

(** ** The collaborators *)

Record Env := {
  (** [SentenceTransformer(model_name)] succeeds *)
  model_loads : string -> bool;
  (** [model.encode(text)] on one string; [None] when the model raises *)
  model_encode : string -> string -> option vector;
  (** [model.encode(texts)] on a list: the rows of the returned array *)
  model_encode_batch : string -> list string -> option (list vector);
  (** the n-th [str(uuid.uuid4())] of the run *)
  uuid_str : nat -> string;
  (** [connect_to_weaviate_cloud(url, key)] succeeds *)
  connects : string -> string -> bool;
  (** the store requests the service refuses *)
  rejects : call -> bool;
}.

Record World := {
  collections : gmap string Collection;
  (** connections acquired and not yet released *)
  live : nat;
  (** identifiers drawn so far *)
  uuids : nat;
  trace : list call;
}.

Definition M (A : Type) : Type := World -> result A * World.

#[global] Instance M_ret : MRet M := fun A a w => (Ok a, w).
#[global] Instance M_bind : MBind M := fun A B k m w =>
  match m w with
  | (Ok a, w') => k a w'
  | (Raise e, w') => (Raise e, w')
  end.
Definition raise {A} (e : exn) : M A := fun w => (Raise e, w).

Definition emit (c : call) : M unit := fun w =>
  (Ok tt, {| collections := collections w; live := live w;
             uuids := uuids w; trace := trace w ++ [c] |}).

Definition set_collections (cs : gmap string Collection) : M unit := fun w =>
  (Ok tt, {| collections := cs; live := live w;
             uuids := uuids w; trace := trace w |}).

Definition set_live (n : nat) : M unit := fun w =>
  (Ok tt, {| collections := collections w; live := n;
             uuids := uuids w; trace := trace w |}).

Definition get_world : M World := fun w => (Ok w, w).

Section Collaborators.
Variable env : Env.

Definition print (m : message) : M unit := emit (Print m).

Definition SentenceTransformer (model_name : string) : M string :=
  emit (LoadModel model_name);;
  if model_loads env model_name then mret model_name else raise ModelError.

Definition encode (model text : string) : M vector :=
  emit (Encode model text);;
  match model_encode env model text with
  | Some v => mret v
  | None => raise ModelError
  end.

Definition encode_batch (model : string) (texts : list string)
  : M (list vector) :=
  emit (EncodeBatch model texts);;
  match model_encode_batch env model texts with
  | Some vs => mret vs
  | None => raise ModelError
  end.

Definition uuid4 : M string := fun w =>
  (Ok (uuid_str env (uuids w)),
   {| collections := collections w; live := live w;
      uuids := S (uuids w); trace := trace w ++ [Uuid4] |}).

(** The client handle remembers the cluster it is connected to. *)
Definition connect_to_weaviate_cloud (cluster_url api_key : string)
  : M string :=
  emit (Connect cluster_url api_key);;
  if connects env cluster_url api_key then
    w ← get_world; set_live (S (live w));; mret cluster_url
  else raise ConfigurationError.

Definition collections_exists (coll : string) : M bool :=
  emit (CollectionsExists coll);;
  if rejects env (CollectionsExists coll) then raise SchemaError
  else w ← get_world; mret (bool_decide (is_Some (collections w !! coll))).

Definition collections_create (cfg : CollectionConfig) : M unit :=
  emit (CollectionsCreate cfg);;
  w ← get_world;
  if rejects env (CollectionsCreate cfg)
     || bool_decide (is_Some (collections w !! name cfg))
  then raise SchemaError
  else set_collections
         (<[name cfg := {| config := cfg; objects := [] |}]> (collections w)).

(** [collections.get] only builds a handle: no request is sent. *)
Definition collections_get (coll : string) : M string :=
  emit (CollectionsGet coll);; mret coll.

Definition store_objects (c : call) (coll : string) (objs : list DataObject)
  : M unit :=
  emit c;;
  w ← get_world;
  match collections w !! coll with
  | Some col =>
      if rejects env c then raise WriteError
      else set_collections
             (<[coll := {| config := config col;
                           objects := objects col ++ objs |}]>
                (collections w))
  | None => raise WriteError
  end.

Definition data_insert (coll : string) (obj : DataObject) : M unit :=
  store_objects (DataInsert coll obj) coll [obj].

Definition data_insert_many (coll : string) (objs : list DataObject)
  : M unit :=
  store_objects (DataInsertMany coll objs) coll objs.

Definition client_close : M unit :=
  emit ClientClose;; w ← get_world; set_live (pred (live w)).

End Collaborators.

(** ** The program: class [BertEmbedder] *)

(** The defaults of [__init__]'s keyword arguments. *)
Definition default_model_name : string := "all-MiniLM-L6-v2".
Definition default_weaviate_url : option string :=
  Some "https://osvcpzz6sjaaloedhjbha.c0.europe-west3.gcp.weaviate.cloud".
Definition default_weaviate_api_key : option string :=
  Some "N2plUjYzemxTVHhXY1poNl9SZzA2bisxdjZQYTlPTTJvUEI2L0dlVkFEN1d1bHJwOTR1bmFNZTBtRHFNPV92MjAw".

(** The instance attributes.  [client] is [None] while [self.client] has not
    been assigned. *)
Record BertEmbedder := {
  model : string;
  client : option string;
}.

(** Truth value of an [Optional[str]]: [None] and the empty string are false.
    A true one yields its string. *)
Definition truthy (s : option string) : option string :=
  match s with
  | Some s => if String.eqb s "" then None else Some s
  | None => None
  end.

(** The collection [_create_schema] asks for. *)
Definition TextEmbedding_config : CollectionConfig := {|
  name := "TextEmbedding";
  description := "Text documents with BERT embeddings";
  vectorizer_config := VectorizerNone;
  properties := [
    {| prop_name := "text"; data_type := TEXT;
       prop_description := "The original text content" |};
    {| prop_name := "text_id"; data_type := TEXT;
       prop_description := "Unique identifier for the text" |} ];
|}.

Section Program.
Variable env : Env.

(** Reading [self.client]. *)
Definition self_client (self : BertEmbedder) : M string :=
  match client self with
  | Some c => mret c
  | None => raise (AttributeError "client")
  end.

Definition _create_schema (self : BertEmbedder) : M unit :=
  self_client self;;
  present ← collections_exists env "TextEmbedding";
  if negb present then
    self_client self;;
    collections_create env TextEmbedding_config;;
    print MsgCreatedCollection
  else
    print MsgCollectionExists.

(** An argument left out is [None] and takes its default; for the two
    [Optional[str]] arguments [Some None] is an explicit [None]. *)
Definition __init__ (model_name : option string)
    (weaviate_url weaviate_api_key : option (option string))
  : M BertEmbedder :=
  let model_name := default default_model_name model_name in
  let weaviate_url := default default_weaviate_url weaviate_url in
  let weaviate_api_key :=
    default default_weaviate_api_key weaviate_api_key in
  m ← SentenceTransformer env model_name;
  let self := {| model := m; client := None |} in
  self ← match truthy weaviate_url, truthy weaviate_api_key with
         | Some url, Some key =>
             c ← connect_to_weaviate_cloud env url key;
             mret {| model := model self; client := Some c |}
         | _, _ =>
             print MsgCloudNotWorking;; mret self
         end;
  _create_schema self;;
  mret self.

Definition embed_text (self : BertEmbedder) (text : string) : M vector :=
  embedding ← encode env (model self) text;
  mret embedding.

Definition store_embedding (self : BertEmbedder) (text : string)
    (text_id : option string) : M string :=
  embedding ← embed_text self text;
  text_id ← match text_id with
            | None => uuid4 env
            | Some given => mret given
            end;
  let data_object : gmap string string :=
    {[ "text" := text; "text_id" := text_id ]} in
  self_client self;;
  collection ← collections_get "TextEmbedding";
  data_insert env collection
    {| obj_properties := data_object; obj_vector := embedding |};;
  print (MsgStoredText text_id);;
  mret text_id.

(** The body of the [for] loop, over what [zip(texts, embeddings)] yields;
    the two accumulators are the lists the loop appends to. *)
Fixpoint batch_loop (items : list (string * vector))
    (objects_to_insert : list DataObject) (stored_ids : list string)
  : M (list DataObject * list string) :=
  match items with
  | [] => mret (objects_to_insert, stored_ids)
  | (text, embedding) :: items =>
      text_id ← uuid4 env;
      let data_object :=
        {| obj_properties := {[ "text" := text; "text_id" := text_id ]};
           obj_vector := embedding |} in
      batch_loop items (objects_to_insert ++ [data_object])
                 (stored_ids ++ [text_id])
  end.

Definition batch_store_embeddings (self : BertEmbedder)
    (texts : list string) : M (list string) :=
  embeddings ← encode_batch env (model self) texts;
  self_client self;;
  collection ← collections_get "TextEmbedding";
  '(objects_to_insert, stored_ids) ← batch_loop (zip texts embeddings) [] [];
  data_insert_many env collection objects_to_insert;;
  print (MsgStoredBatch (length texts));;
  mret stored_ids.

Definition close (self : BertEmbedder) : M unit :=
  self_client self;;
  client_close.

(** ** The script under [if __name__ == "__main__"] *)

Definition sample_texts : list string := [
  "The quick brown fox jumps over the lazy dog.";
  "Machine learning is transforming the world of technology.";
  "Weaviate is a vector database for storing embeddings.";
  "BERT creates contextual word embeddings." ].

(** The [try] block: the value of the variable [embedder] when the block
    is left, and how it is left. *)
Definition main_try (w : World)
  : option BertEmbedder * (result unit * World) :=
  match __init__ None None None w with
  | (Raise e, w1) => (None, (Raise e, w1))
  | (Ok embedder, w1) =>
      (Some embedder,
       (single_id ← store_embedding embedder "This is a test sentence." None;
        batch_ids ← batch_store_embeddings embedder sample_texts;
        print (MsgSingleStored single_id);;
        print (MsgBatchStored batch_ids)) w1)
  end.

(** The [finally] block; an instance of the class is true, [None] false. *)
Definition main_finally (embedder : option BertEmbedder) : M unit :=
  match embedder with
  | Some embedder => close embedder;; print MsgConnectionClosed
  | None => mret tt
  end.

(** [try ... finally]: the cleanup runs on both exits, then the pending
    exception, if any, goes on. *)
Definition main : M unit := fun w =>
  let '(embedder, (r, w1)) := main_try w in
  match main_finally embedder w1 with
  | (Ok _, w2) => (r, w2)
  | (Raise e, w2) => (Raise e, w2)
  end.

End Program.

(** ** Reading a trace *)

Definition is_insert (c : call) : bool :=
  match c with
  | DataInsert _ _ | DataInsertMany _ _ => true
  | _ => false
  end.

Definition is_create (c : call) : bool :=
  match c with CollectionsCreate _ => true | _ => false end.

Definition is_close (c : call) : bool :=
  match c with ClientClose => true | _ => false end.

(** The collection a call names, when it names one. *)
Definition call_collection (c : call) : option string :=
  match c with
  | CollectionsExists n | CollectionsGet n
  | DataInsert n _ | DataInsertMany n _ => Some n
  | CollectionsCreate cfg => Some (name cfg)
  | _ => None
  end.

(** A fresh world: empty store, no connection, no identifier drawn. *)
Definition world0 : World :=
  {| collections := ∅; live := 0; uuids := 0; trace := [] |}.

(** The calls a run adds to the trace of [w]. *)
Definition issued (w w' : World) : list call :=
  drop (length (trace w)) (trace w').

(** The object both write paths build for one text. *)
Definition record_of (text text_id : string) (embedding : vector)
  : DataObject :=
  {| obj_properties := {[ "text" := text; "text_id" := text_id ]};
     obj_vector := embedding |}.

(** The [k] identifiers drawn from the [n]-th on. *)
Definition fresh_ids (env : Env) (n k : nat) : list string :=
  uuid_str env <$> seq n k.

(** The objects the loop of [batch_store_embeddings] builds from the zipped
    items and the identifiers it draws. *)
Definition batch_objects (items : list (string * vector))
    (ids : list string) : list DataObject :=
  zip_with (fun '(text, embedding) text_id => record_of text text_id embedding)
    items ids.

(** A call that names a collection names [TextEmbedding]. *)
Definition names_TextEmbedding (c : call) : Prop :=
  forall n, call_collection c = Some n -> n = "TextEmbedding".

(** A call that acquires or releases a connection. *)
Definition is_connection (c : call) : bool :=
  match c with
  | Connect _ _ | ClientClose => true
  | _ => false
  end.

Definition no_connection_call (c : call) : Prop := is_connection c = false.

(** [extends P w w']: the run from [w] to [w'] added calls to the trace, all
    of them in [P]; a collection none of them names is as it was, and the
    number of live connections stands unless one of them is a connection
    call. *)
Definition extends (P : call -> Prop) (w w' : World) : Prop :=
  exists t : list call,
    trace w' = trace w ++ t /\
    Forall P t /\
    (forall n, Forall (fun c => call_collection c <> Some n) t ->
               collections w' !! n = collections w !! n) /\
    (Forall no_connection_call t -> live w' = live w).

(** [yields P Q m]: whatever the outcome, a run of [m] extends the world
    with calls in [P]; when it returns, the value is in [Q]. *)
Definition yields {A} (P : call -> Prop) (Q : A -> Prop) (m : M A) : Prop :=
  forall w, extends P w (m w).2 /\ forall a, (m w).1 = Ok a -> Q a.

Definition any {A} (a : A) : Prop := True.
#[global] Hint Extern 0 (any _) => exact I : core.

(** The calls the two write paths are made of. *)
Definition write_call (c : call) : Prop :=
  match c with
  | Encode _ _ | EncodeBatch _ _ | Uuid4 | Print _ => True
  | CollectionsGet n | DataInsert n _ | DataInsertMany n _ =>
      n = "TextEmbedding"
  | _ => False
  end.

(** The calls construction is made of. *)
Definition setup_call (c : call) : Prop :=
  match c with
  | LoadModel _ | Connect _ _ | Print _ => True
  | CollectionsExists n => n = "TextEmbedding"
  | CollectionsCreate cfg => cfg = TextEmbedding_config
  | _ => False
  end.

(** Whatever the outcome, a run of [m] names no collection but
    [TextEmbedding] in its calls, and leaves every other collection of the
    store as it was. *)
Definition targets_only_TextEmbedding {A} (m : M A) : Prop :=
  forall w,
    Forall names_TextEmbedding (issued w (m w).2) /\
    forall n, n <> "TextEmbedding" ->
              collections (m w).2 !! n = collections w !! n.

(** ** Concrete collaborators, to run the program on *)

(** A toy model: one coordinate, telling the text "hello" from the rest. *)
Definition toy_vector (text : string) : vector :=
  [if String.eqb text "hello" then 1%float else 0.5%float].

(** Everything works: the model loads and encodes, the service accepts the
    connection and every request, identifiers are "id-0", "id-1", ... *)
Definition env_ok : Env := {|
  model_loads := fun _ => true;
  model_encode := fun _ text => Some (toy_vector text);
  model_encode_batch := fun _ texts => Some (toy_vector <$> texts);
  uuid_str := fun n => "id-" +:+ pretty n;
  connects := fun _ _ => true;
  rejects := fun _ => false;
|}.

(** The service accepts the connection but refuses to create collections
    (permission denied). *)
Definition env_create_denied : Env := {|
  model_loads := fun _ => true;
  model_encode := fun _ text => Some (toy_vector text);
  model_encode_batch := fun _ texts => Some (toy_vector <$> texts);
  uuid_str := fun n => "id-" +:+ pretty n;
  connects := fun _ _ => true;
  rejects := fun c => is_create c;
|}.

(** The model loads but cannot encode. *)
Definition env_model_down : Env := {|
  model_loads := fun _ => true;
  model_encode := fun _ _ => None;
  model_encode_batch := fun _ _ => None;
  uuid_str := fun n => "id-" +:+ pretty n;
  connects := fun _ _ => true;
  rejects := fun _ => false;
|}.

(** The service refuses the connection (invalid credentials). *)
Definition env_no_connection : Env := {|
  model_loads := fun _ => true;
  model_encode := fun _ text => Some (toy_vector text);
  model_encode_batch := fun _ texts => Some (toy_vector <$> texts);
  uuid_str := fun n => "id-" +:+ pretty n;
  connects := fun _ _ => false;
  rejects := fun _ => false;
|}.

(** The model cannot be loaded. *)
Definition env_model_missing : Env := {|
  model_loads := fun _ => false;
  model_encode := fun _ _ => None;
  model_encode_batch := fun _ _ => None;
  uuid_str := fun n => "id-" +:+ pretty n;
  connects := fun _ _ => true;
  rejects := fun _ => false;
|}.

(** The service refuses every insert, single or batch. *)
Definition env_insert_denied : Env := {|
  model_loads := fun _ => true;
  model_encode := fun _ text => Some (toy_vector text);
  model_encode_batch := fun _ texts => Some (toy_vector <$> texts);
  uuid_str := fun n => "id-" +:+ pretty n;
  connects := fun _ _ => true;
  rejects := fun c => is_insert c;
|}.

(** A model whose batched call returns a row for the first text only. *)
Definition env_short_model : Env := {|
  model_loads := fun _ => true;
  model_encode := fun _ text => Some (toy_vector text);
  model_encode_batch := fun _ texts => Some (toy_vector <$> take 1 texts);
  uuid_str := fun n => "id-" +:+ pretty n;
  connects := fun _ _ => true;
  rejects := fun _ => false;
|}.

(** A client that refuses an [insert_many] of no objects and accepts every
    other request. *)
Definition env_empty_batch_refused : Env := {|
  model_loads := fun _ => true;
  model_encode := fun _ text => Some (toy_vector text);
  model_encode_batch := fun _ texts => Some (toy_vector <$> texts);
  uuid_str := fun n => "id-" +:+ pretty n;
  connects := fun _ _ => true;
  rejects := fun c => match c with DataInsertMany _ [] => true | _ => false end;
|}.

(** An embedder as [__init__] leaves it, and the world it leaves. *)
Definition embedder_ok : BertEmbedder :=
  {| model := default_model_name;
     client := default_weaviate_url |}.

Definition world_ready : World :=
  (__init__ env_ok None None None world0).2.

(** ** The claims that do not hold, as propositions *)

(** "[storeBatch([])] returns an empty sequence and issues no insert call." *)
Definition batch_empty_issues_no_insert (env : Env) (self : BertEmbedder)
    (w : World) : Prop :=
  let '(r, w') := batch_store_embeddings env self [] w in
  r = Ok [] /\ List.filter is_insert (issued w w') = [].

(** "Explicit configuration injection is required, and the program fails
    fast if the configuration is absent": constructing without an endpoint
    and a key fails, and no connection is attempted. *)
Definition requires_configuration (env : Env) (w : World) : Prop :=
  let '(r, w') := __init__ env None None None w in
  (exists e, r = Raise e) /\
  forall url key, Connect url key ∉ issued w w'.

(** "If the endpoint URL or API key is absent, construction fails with a
    ConfigurationError before any schema operation is attempted." *)
Definition absent_credentials_reported (env : Env)
    (weaviate_url weaviate_api_key : option (option string)) (w : World)
  : Prop :=
  (__init__ env None weaviate_url weaviate_api_key w).1
  = Raise ConfigurationError.

(** "The connection-release step runs on every exit path": a run of the
    script ends with no connection left acquired. *)
Definition main_releases (env : Env) (w : World) : Prop :=
  live (main env w).2 = live w.

(** * Properties *)

(** ** Running a computation by hand *)

Ltac unfold_prims :=
  unfold store_embedding, batch_store_embeddings, embed_text, _create_schema,
    __init__, close, self_client, encode, encode_batch,
    connect_to_weaviate_cloud, collections_exists, collections_create,
    collections_get, data_insert, data_insert_many, store_objects,
    client_close, SentenceTransformer, uuid4, print, emit, raise, get_world,
    set_live, set_collections in *.

Ltac run_M :=
  unfold_prims; unfold mbind, M_bind, mret, M_ret in *; cbn beta iota zeta.

Lemma issued_app (w w' : World) (t : list call) :
  trace w' = trace w ++ t -> issued w w' = t.
Proof. intros E. unfold issued. rewrite E. apply drop_app_length. Qed.

(** ** The loop of [batch_store_embeddings] *)

Lemma fresh_ids_length env n k : length (fresh_ids env n k) = k.
Proof. unfold fresh_ids. by rewrite length_fmap, length_seq. Qed.

Lemma fresh_ids_lookup env n k i :
  i < k -> fresh_ids env n k !! i = Some (uuid_str env (n + i)).
Proof.
  intros Hi. unfold fresh_ids. rewrite list_lookup_fmap.
  by rewrite lookup_seq_lt.
Qed.

Lemma fresh_ids_NoDup env n k :
  Inj (=) (=) (uuid_str env) -> NoDup (fresh_ids env n k).
Proof. intros Hinj. apply NoDup_fmap_2; [done | apply NoDup_seq]. Qed.

Lemma fresh_ids_cons env n k :
  fresh_ids env n (S k) = uuid_str env n :: fresh_ids env (S n) k.
Proof. reflexivity. Qed.

(** The loop draws one identifier per item, in order, and appends one object
    and one identifier per item; it sends nothing to the store. *)
Lemma batch_loop_run env items : forall objs ids w,
  batch_loop env items objs ids w =
  (Ok (objs ++ batch_objects items (fresh_ids env (uuids w) (length items)),
       ids ++ fresh_ids env (uuids w) (length items)),
   {| collections := collections w; live := live w;
      uuids := uuids w + length items;
      trace := trace w ++ replicate (length items) Uuid4 |}).
Proof.
  induction items as [|[text embedding] items IH]; intros objs ids w.
  - cbn. rewrite !app_nil_r, Nat.add_0_r. by destruct w.
  - cbn [batch_loop]. run_M. rewrite IH. cbn [uuids trace collections live].
    cbn [length]. rewrite fresh_ids_cons. unfold batch_objects.
    cbn [zip_with replicate].
    rewrite <- !app_assoc. cbn [app].
    by rewrite Nat.add_succ_r.
Qed.

(** ** What a successful write does, call by call *)

Lemma store_embedding_run env self text text_id w v c col :
  model_encode env (model self) text = Some v ->
  client self = Some c ->
  collections w !! "TextEmbedding" = Some col ->
  let id := default (uuid_str env (uuids w)) text_id in
  rejects env (DataInsert "TextEmbedding" (record_of text id v)) = false ->
  store_embedding env self text text_id w =
  (Ok id,
   {| collections :=
        <["TextEmbedding" :=
            {| config := config col;
               objects := objects col ++ [record_of text id v] |}]>
          (collections w);
      live := live w;
      uuids := match text_id with Some _ => uuids w | None => S (uuids w) end;
      trace := trace w ++ [Encode (model self) text]
                 ++ match text_id with Some _ => [] | None => [Uuid4] end
                 ++ [CollectionsGet "TextEmbedding";
                     DataInsert "TextEmbedding" (record_of text id v);
                     Print (MsgStoredText id)] |}).
Proof.
  intros Hv Hc Hcol id Hrej. subst id. run_M. rewrite Hv, Hc.
  destruct text_id as [given|]; cbn in *; unfold record_of in Hrej;
    rewrite Hcol, Hrej; cbn; by rewrite <- !app_assoc.
Qed.

Lemma batch_store_embeddings_run env self texts w vs c col :
  model_encode_batch env (model self) texts = Some vs ->
  client self = Some c ->
  collections w !! "TextEmbedding" = Some col ->
  let n := length (zip texts vs) in
  let ids := fresh_ids env (uuids w) n in
  let objs := batch_objects (zip texts vs) ids in
  rejects env (DataInsertMany "TextEmbedding" objs) = false ->
  batch_store_embeddings env self texts w =
  (Ok ids,
   {| collections :=
        <["TextEmbedding" :=
            {| config := config col; objects := objects col ++ objs |}]>
          (collections w);
      live := live w;
      uuids := uuids w + n;
      trace := trace w
                 ++ [EncodeBatch (model self) texts;
                     CollectionsGet "TextEmbedding"]
                 ++ replicate n Uuid4
                 ++ [DataInsertMany "TextEmbedding" objs;
                     Print (MsgStoredBatch (length texts))] |}).
Proof.
  intros Hvs Hc Hcol n ids objs Hrej. subst n ids objs.
  run_M. rewrite Hvs, Hc. cbn beta iota zeta.
  rewrite batch_loop_run. cbn [uuids trace collections live app].
  rewrite Hcol, Hrej. cbn. by rewrite <- !app_assoc.
Qed.

Lemma record_of_text text text_id v :
  obj_properties (record_of text text_id v) !! "text" = Some text.
Proof. reflexivity. Qed.

Lemma record_of_text_id text text_id v :
  obj_properties (record_of text text_id v) !! "text_id" = Some text_id.
Proof. reflexivity. Qed.

Lemma batch_objects_lookup (texts : list string) (vs : list vector)
    (ids : list string) (j : nat) (o : DataObject) :
  batch_objects (zip texts vs) ids !! j = Some o ->
  exists text v id,
    texts !! j = Some text /\ vs !! j = Some v /\ ids !! j = Some id /\
    o = record_of text id v.
Proof.
  unfold batch_objects. rewrite lookup_zip_with.
  destruct (zip texts vs !! j) as [[text v]|] eqn:Hz; [|done].
  destruct (ids !! j) as [id|] eqn:Hid; [|done].
  cbn. intros [= <-].
  rewrite lookup_zip_with in Hz.
  destruct (texts !! j) as [text'|]; [|done].
  destruct (vs !! j) as [v'|]; [|done].
  cbn in Hz. injection Hz as -> ->. by exists text, v, id.
Qed.

Lemma batch_objects_length (texts : list string) (vs : list vector)
    (ids : list string) :
  length vs = length texts -> length ids = length texts ->
  length (batch_objects (zip texts vs) ids) = length texts.
Proof.
  intros Hvs Hids. unfold batch_objects.
  rewrite length_zip_with, length_zip_with. lia.
Qed.

(** ** Batch store *)

(** C4: when the model returns one vector per text, the store accepts the
    batch and identifiers do not collide, [batch_store_embeddings] returns
    one identifier per text, all distinct and in input order; it sends one
    [insert_many] whose i-th object carries texts[i], the i-th identifier and
    the i-th vector, and the object found under the i-th identifier has text
    texts[i]. *)
Theorem batch_store_embeddings_ids env self texts w vs c col :
  model_encode_batch env (model self) texts = Some vs ->
  length vs = length texts ->
  Inj (=) (=) (uuid_str env) ->
  client self = Some c ->
  collections w !! "TextEmbedding" = Some col ->
  (forall objs, rejects env (DataInsertMany "TextEmbedding" objs) = false) ->
  exists ids objs w',
    batch_store_embeddings env self texts w = (Ok ids, w') /\
    length ids = length texts /\
    NoDup ids /\
    List.filter is_insert (issued w w') =
      [DataInsertMany "TextEmbedding" objs] /\
    collections w' !! "TextEmbedding" =
      Some {| config := config col; objects := objects col ++ objs |} /\
    length objs = length texts /\
    (forall i text, texts !! i = Some text ->
       exists id v, ids !! i = Some id /\ vs !! i = Some v /\
                    objs !! i = Some (record_of text id v)) /\
    (forall i id o, ids !! i = Some id -> o ∈ objs ->
       obj_properties o !! "text_id" = Some id ->
       obj_properties o !! "text" = texts !! i).
Proof.
  intros Hvs Hlen Hinj Hc Hcol Hrej.
  pose proof (batch_store_embeddings_run env self texts w vs c col
                Hvs Hc Hcol (Hrej _)) as Hrun.
  cbv zeta in Hrun.
  assert (Hn : length (zip texts vs) = length texts).
  { rewrite length_zip_with. lia. }
  rewrite Hn in Hrun.
  set (ids := fresh_ids env (uuids w) (length texts)) in *.
  set (objs := batch_objects (zip texts vs) ids) in *.
  assert (Hids : length ids = length texts) by apply fresh_ids_length.
  assert (Hnd : NoDup ids) by by apply fresh_ids_NoDup.
  eexists ids, objs, _. split; [exact Hrun|].
  split; [done|]. split; [done|]. split.
  { assert (E : forall n, List.filter is_insert (replicate n Uuid4) = []).
    { induction n; [done|]. cbn. done. }
    erewrite issued_app; [|cbn; reflexivity].
    cbn. by rewrite List.filter_app, E. }
  split; [cbn; by rewrite lookup_insert_eq|].
  split; [by apply batch_objects_length|].
  split.
  - intros i text Hi.
    assert (Hlt : i < length texts) by by eapply lookup_lt_Some.
    destruct (lookup_lt_is_Some_2 vs i) as [v Hv]; [lia|].
    destruct (lookup_lt_is_Some_2 ids i) as [id Hid]; [lia|].
    exists id, v. split; [done|]. split; [done|].
    unfold objs, batch_objects. rewrite !lookup_zip_with, Hi, Hv, Hid.
    reflexivity.
  - intros i id o Hi [j Hj]%list_elem_of_lookup Hid.
    apply batch_objects_lookup in Hj
      as (text & v & id' & Ht & Hv & Hid' & ->).
    rewrite record_of_text_id in Hid. injection Hid as ->.
    rewrite record_of_text.
    assert (i = j) as -> by by eapply NoDup_lookup.
    done.
Qed.

Lemma batch_store_embeddings_ids_witness :
  exists (ids : list string) (objs : list DataObject) w',
    batch_store_embeddings env_ok embedder_ok ["a"; "b"; "c"] world_ready
      = (Ok ids, w') /\
    length ids = 3 /\ NoDup ids /\
    (exists id v, ids !! 1 = Some id /\ objs !! 1 = Some (record_of "b" id v)).
Proof.
  destruct (batch_store_embeddings_ids env_ok embedder_ok ["a"; "b"; "c"]
              world_ready (toy_vector <$> ["a"; "b"; "c"])
              "https://osvcpzz6sjaaloedhjbha.c0.europe-west3.gcp.weaviate.cloud"
              {| config := TextEmbedding_config; objects := [] |})
    as (ids & objs & w' & Hrun & Hlen & Hnd & _ & _ & _ & Hi & _).
  - reflexivity.
  - reflexivity.
  - intros n m E. cbn in E. apply (inj (String.append "id-")) in E.
    by apply (inj pretty) in E.
  - reflexivity.
  - vm_compute. reflexivity.
  - reflexivity.
  - exists ids, objs, w'. split; [exact Hrun|]. split; [exact Hlen|].
    split; [exact Hnd|].
    destruct (Hi 1 "b" eq_refl) as (id & v & Hid & _ & Ho).
    by exists id, v.
Defined.

(** C2 at the input where it fails: on the empty list
    [batch_store_embeddings] draws no identifier, but it has no guard for an
    empty batch and still sends one [insert_many], carrying an empty list of
    objects, whatever the store then answers.  With a client that refuses an
    empty batch the call raises instead of returning the empty list; the
    store is as it was. *)
Theorem batch_store_embeddings_empty_sends env self w vs c :
  model_encode_batch env (model self) [] = Some vs ->
  client self = Some c ->
  List.filter is_insert (issued w (batch_store_embeddings env self [] w).2)
    = [DataInsertMany "TextEmbedding" []] /\
  uuids (batch_store_embeddings env self [] w).2 = uuids w /\
  (rejects env (DataInsertMany "TextEmbedding" []) = true ->
   (batch_store_embeddings env self [] w).1 = Raise WriteError /\
   collections (batch_store_embeddings env self [] w).2 = collections w).
Proof.
  intros Hvs Hc. run_M. rewrite Hvs, Hc. cbn.
  destruct (collections w !! "TextEmbedding") as [col|];
    [destruct (rejects env (DataInsertMany "TextEmbedding" []))|]; cbn;
    (split; [erewrite issued_app; [|cbn; rewrite <- !app_assoc; reflexivity];
             reflexivity|]);
    (split; [done|]); by intros.
Qed.

Lemma batch_store_embeddings_empty_sends_witness :
  (batch_store_embeddings env_empty_batch_refused embedder_ok [] world_ready).1
    = Raise WriteError /\
  List.filter is_insert
    (issued world_ready
       (batch_store_embeddings env_empty_batch_refused embedder_ok []
          world_ready).2)
    = [DataInsertMany "TextEmbedding" []].
Proof.
  destruct (batch_store_embeddings_empty_sends env_empty_batch_refused
              embedder_ok world_ready []
              "https://osvcpzz6sjaaloedhjbha.c0.europe-west3.gcp.weaviate.cloud")
    as (Hcalls & _ & Hraise).
  - reflexivity.
  - reflexivity.
  - split; [apply Hraise; reflexivity | exact Hcalls].
Defined.

(** The empty batch reaches the store as an [insert_many] call, and with
    such a client nothing is returned. *)
Lemma batch_empty_sends_insert_many :
  ~ batch_empty_issues_no_insert env_empty_batch_refused embedder_ok
      world_ready.
Proof.
  unfold batch_empty_issues_no_insert. vm_compute. intros [H _]. discriminate H.
Qed.

(** ** Single store *)

(** C6: [store_embedding] returns the identifier it used: the caller's when
    one is given, otherwise the next identifier drawn, which differs from
    every identifier drawn before when identifiers do not collide.  The store
    receives exactly one insert, of the object with the text, that identifier
    and the vector [embed_text] returns for the text. *)
Theorem store_embedding_record env self text text_id w v c col :
  model_encode env (model self) text = Some v ->
  Inj (=) (=) (uuid_str env) ->
  client self = Some c ->
  collections w !! "TextEmbedding" = Some col ->
  (forall o, rejects env (DataInsert "TextEmbedding" o) = false) ->
  exists id w',
    store_embedding env self text text_id w = (Ok id, w') /\
    (embed_text env self text w).1 = Ok v /\
    match text_id with
    | Some given => id = given /\ uuids w' = uuids w
    | None =>
        id = uuid_str env (uuids w) /\ uuids w' = S (uuids w) /\
        forall k, k < uuids w -> uuid_str env k <> id
    end /\
    List.filter is_insert (issued w w') =
      [DataInsert "TextEmbedding" (record_of text id v)] /\
    collections w' !! "TextEmbedding" =
      Some {| config := config col;
              objects := objects col ++ [record_of text id v] |}.
Proof.
  intros Hv Hinj Hc Hcol Hrej.
  pose proof (store_embedding_run env self text text_id w v c col
                Hv Hc Hcol (Hrej _)) as Hrun.
  cbv zeta in Hrun. eexists _, _. split; [exact Hrun|].
  split. { run_M. by rewrite Hv. }
  split.
  { destruct text_id as [given|]; cbn; [done|].
    split; [done|]. split; [done|].
    intros k Hk E. apply Hinj in E. lia. }
  split.
  { erewrite issued_app; [|cbn; reflexivity].
    by destruct text_id. }
  cbn. by rewrite lookup_insert_eq.
Qed.

Lemma store_embedding_record_witness :
  exists id w',
    store_embedding env_ok embedder_ok "hello" None world_ready = (Ok id, w') /\
    List.filter is_insert (issued world_ready w') =
      [DataInsert "TextEmbedding" (record_of "hello" id (toy_vector "hello"))].
Proof.
  destruct (store_embedding_record env_ok embedder_ok "hello" None
              world_ready (toy_vector "hello")
              "https://osvcpzz6sjaaloedhjbha.c0.europe-west3.gcp.weaviate.cloud"
              {| config := TextEmbedding_config; objects := [] |})
    as (id & w' & Hrun & _ & _ & Hcalls & _).
  - reflexivity.
  - intros n m E. cbn in E. apply (inj (String.append "id-")) in E.
    by apply (inj pretty) in E.
  - reflexivity.
  - vm_compute. reflexivity.
  - reflexivity.
  - by exists id, w'.
Defined.

(** ** Failure of the model *)

(** C9: both write paths encode first.  When the model raises, the write
    raises [ModelError] having issued the encode call only: no identifier is
    drawn, nothing is sent to the store, and the store is as it was. *)
Theorem embedding_failure_atomic env self w :
  (forall text text_id,
     model_encode env (model self) text = None ->
     exists w',
       store_embedding env self text text_id w = (Raise ModelError, w') /\
       issued w w' = [Encode (model self) text] /\
       collections w' = collections w /\ uuids w' = uuids w) /\
  (forall texts,
     model_encode_batch env (model self) texts = None ->
     exists w',
       batch_store_embeddings env self texts w = (Raise ModelError, w') /\
       issued w w' = [EncodeBatch (model self) texts] /\
       collections w' = collections w /\ uuids w' = uuids w).
Proof.
  split.
  - intros text text_id Hv. run_M. rewrite Hv. eexists. split; [done|].
    split; [by apply issued_app|done].
  - intros texts Hvs. run_M. rewrite Hvs. eexists. split; [done|].
    split; [by apply issued_app|done].
Qed.

Lemma embedding_failure_atomic_witness :
  (exists w',
     store_embedding env_model_down embedder_ok "hello" None world_ready
       = (Raise ModelError, w') /\
     collections w' = collections world_ready) /\
  (exists w',
     batch_store_embeddings env_model_down embedder_ok ["a"; "b"] world_ready
       = (Raise ModelError, w') /\
     collections w' = collections world_ready).
Proof.
  destruct (embedding_failure_atomic env_model_down embedder_ok world_ready)
    as [H1 H2].
  split.
  - destruct (H1 "hello" None eq_refl) as (w' & Hrun & _ & Hcol & _).
    by exists w'.
  - destruct (H2 ["a"; "b"] eq_refl) as (w' & Hrun & _ & Hcol & _).
    by exists w'.
Defined.

(** ** Schema *)

Lemma create_schema_absent env self w c :
  client self = Some c ->
  rejects env (CollectionsExists "TextEmbedding") = false ->
  rejects env (CollectionsCreate TextEmbedding_config) = false ->
  collections w !! "TextEmbedding" = None ->
  _create_schema env self w =
  (Ok tt,
   {| collections :=
        <["TextEmbedding" :=
            {| config := TextEmbedding_config; objects := [] |}]>
          (collections w);
      live := live w; uuids := uuids w;
      trace := trace w ++ [CollectionsExists "TextEmbedding";
                           CollectionsCreate TextEmbedding_config;
                           Print MsgCreatedCollection] |}).
Proof.
  intros Hc Hex Hcr Habs. run_M. rewrite Hc, Hex. cbn.
  rewrite Habs. cbn. rewrite Hcr, Habs. cbn.
  by rewrite <- !app_assoc.
Qed.

Lemma create_schema_present env self w c col :
  client self = Some c ->
  rejects env (CollectionsExists "TextEmbedding") = false ->
  collections w !! "TextEmbedding" = Some col ->
  _create_schema env self w =
  (Ok tt,
   {| collections := collections w; live := live w; uuids := uuids w;
      trace := trace w ++ [CollectionsExists "TextEmbedding";
                           Print MsgCollectionExists] |}).
Proof.
  intros Hc Hex Hcol. run_M. rewrite Hc, Hex. cbn. rewrite Hcol. cbn.
  by rewrite <- !app_assoc.
Qed.

(** C5: [_create_schema] is idempotent.  On a store without the collection
    the first call checks, creates it once, with the two text properties
    [text] and [text_id] and no vectorizer; on a store that has it the call
    checks and creates nothing.  A second call in sequence only checks, and
    leaves the collections as the first call left them. *)
Theorem create_schema_idempotent env self w c :
  client self = Some c ->
  rejects env (CollectionsExists "TextEmbedding") = false ->
  rejects env (CollectionsCreate TextEmbedding_config) = false ->
  exists w1 w2,
    _create_schema env self w = (Ok tt, w1) /\
    _create_schema env self w1 = (Ok tt, w2) /\
    match collections w !! "TextEmbedding" with
    | None =>
        issued w w1 = [CollectionsExists "TextEmbedding";
                       CollectionsCreate TextEmbedding_config;
                       Print MsgCreatedCollection] /\
        collections w1 =
          <["TextEmbedding" :=
              {| config := TextEmbedding_config; objects := [] |}]>
            (collections w)
    | Some _ =>
        issued w w1 = [CollectionsExists "TextEmbedding";
                       Print MsgCollectionExists] /\
        collections w1 = collections w
    end /\
    issued w1 w2 = [CollectionsExists "TextEmbedding";
                    Print MsgCollectionExists] /\
    collections w2 = collections w1 /\
    vectorizer_config TextEmbedding_config = VectorizerNone /\
    (fun p => (prop_name p, data_type p)) <$> properties TextEmbedding_config
      = [("text", TEXT); ("text_id", TEXT)].
Proof.
  intros Hc Hex Hcr.
  destruct (collections w !! "TextEmbedding") as [col|] eqn:Hcol.
  - eexists _, _.
    split; [by eapply create_schema_present|].
    split; [by eapply create_schema_present|].
    split; [split; [by apply issued_app|done]|].
    split; [by apply issued_app|done].
  - eexists _, _.
    split; [by eapply create_schema_absent|].
    split.
    { eapply create_schema_present; [done..|]. cbn. apply lookup_insert_eq. }
    split; [split; [by apply issued_app|done]|].
    split; [by apply issued_app|done].
Qed.

Lemma create_schema_idempotent_witness :
  exists w1 w2,
    _create_schema env_ok embedder_ok world0 = (Ok tt, w1) /\
    _create_schema env_ok embedder_ok w1 = (Ok tt, w2) /\
    List.filter is_create (issued world0 w1) =
      [CollectionsCreate TextEmbedding_config] /\
    List.filter is_create (issued w1 w2) = [] /\
    collections w2 = collections w1.
Proof.
  destruct (create_schema_idempotent env_ok embedder_ok world0
              "https://osvcpzz6sjaaloedhjbha.c0.europe-west3.gcp.weaviate.cloud")
    as (w1 & w2 & H1 & H2 & [Hc1 _] & Hc2 & Hcol & _).
  - reflexivity.
  - reflexivity.
  - reflexivity.
  - exists w1, w2. split; [exact H1|]. split; [exact H2|].
    rewrite Hc1, Hc2. by split; [|split].
Defined.

(** X3: idempotence on every path, also when the client is missing or the
    store refuses a request: running [_create_schema] twice in sequence ends
    like running it once, in result and in collections. *)
Lemma create_schema_twice env self w :
  ((_create_schema env self;; _create_schema env self) w).1
    = (_create_schema env self w).1 /\
  collections ((_create_schema env self;; _create_schema env self) w).2
    = collections (_create_schema env self w).2.
Proof.
  change ((_create_schema env self;; _create_schema env self) w)
    with (match _create_schema env self w with
          | (Ok _, w') => _create_schema env self w'
          | (Raise e, w') => (Raise e, w')
          end).
  destruct (_create_schema env self w) as [[[]|e] w1] eqn:H1; [|done].
  assert (exists c, client self = Some c
            /\ rejects env (CollectionsExists "TextEmbedding") = false
            /\ is_Some (collections w1 !! "TextEmbedding")) as (c & Hc & Hex & [col Hcol]).
  { revert H1. run_M. destruct (client self) as [c|]; [|done].
    destruct (rejects env (CollectionsExists "TextEmbedding")); [done|].
    cbn. destruct (collections w !! "TextEmbedding") as [col|] eqn:Hcol; cbn.
    - intros [= <-]. cbn. eauto.
    - destruct (rejects env (CollectionsCreate TextEmbedding_config));
        cbn; [done|]. rewrite Hcol. cbn. intros [= <-]. cbn.
      exists c. rewrite lookup_insert_eq. eauto. }
  erewrite create_schema_present by done. done.
Qed.

(** ** What every run keeps *)

Lemma extends_refl P w : extends P w w.
Proof. exists []. by rewrite app_nil_r. Qed.

Lemma extends_trans P w1 w2 w3 :
  extends P w1 w2 -> extends P w2 w3 -> extends P w1 w3.
Proof.
  intros (t1 & E1 & P1 & C1 & L1) (t2 & E2 & P2 & C2 & L2).
  exists (t1 ++ t2). split; [by rewrite E2, E1, app_assoc|].
  split; [by apply Forall_app|]. split.
  - intros n [H1 H2]%Forall_app. by rewrite C2, C1.
  - intros [H1 H2]%Forall_app. by rewrite L2, L1.
Qed.

#[global] Instance extends_preorder P : PreOrder (extends P).
Proof. split; [intros w; apply extends_refl | intros ?; apply extends_trans]. Qed.

(** One collaborator call. *)
Lemma extends_call P c w w' :
  P c ->
  trace w' = trace w ++ [c] ->
  (forall n, call_collection c <> Some n ->
             collections w' !! n = collections w !! n) ->
  (is_connection c = false -> live w' = live w) ->
  extends P w w'.
Proof.
  intros HP E C L. exists [c]. split; [done|]. split; [by constructor|].
  split.
  - intros n Hn. apply C. by inversion Hn.
  - intros Hn. apply L. by inversion Hn.
Qed.

Section Yields.
Context (P : call -> Prop).

Lemma yields_ret {A} (Q : A -> Prop) (a : A) : Q a -> yields P Q (mret a).
Proof. intros HQ w. split; [apply extends_refl|]. by intros ? [= <-]. Qed.

Lemma yields_raise {A} (Q : A -> Prop) e : yields P Q (raise e).
Proof. intros w. split; [apply extends_refl|done]. Qed.

Lemma yields_bind {A B} (Q : A -> Prop) (Q' : B -> Prop)
    (m : M A) (k : A -> M B) :
  yields P Q m -> (forall a, Q a -> yields P Q' (k a)) ->
  yields P Q' (m ≫= k).
Proof.
  intros Hm Hk w. unfold mbind, M_bind. destruct (Hm w) as [Hw Ha].
  destruct (m w) as [[a|e] w1]; cbn in *; [|done].
  destruct (Hk a (Ha a eq_refl) w1) as [Hw1 Hb].
  split; [by eapply extends_trans|done].
Qed.

Lemma yields_any {A} (Q : A -> Prop) (m : M A) :
  yields P Q m -> yields P any m.
Proof. intros Hm w. split; [apply Hm|done]. Qed.

Lemma yields_self_client self : yields P any (self_client self).
Proof.
  intros w. unfold self_client. case_match; (split; [apply extends_refl|done]).
Qed.

Ltac one_call c :=
  intros HP w; split; [|done]; run_M; repeat case_match; cbn;
  (apply (extends_call P c); cbn; [exact HP | done..]).

Lemma yields_print m : P (Print m) -> yields P any (print m).
Proof. one_call (Print m). Qed.

Lemma yields_SentenceTransformer env n :
  P (LoadModel n) -> yields P any (SentenceTransformer env n).
Proof. one_call (LoadModel n). Qed.

Lemma yields_encode env m text :
  P (Encode m text) -> yields P any (encode env m text).
Proof. one_call (Encode m text). Qed.

Lemma yields_encode_batch env m texts :
  P (EncodeBatch m texts) -> yields P any (encode_batch env m texts).
Proof. one_call (EncodeBatch m texts). Qed.

Lemma yields_uuid4 env : P Uuid4 -> yields P any (uuid4 env).
Proof. one_call Uuid4. Qed.

Lemma yields_connect env url key :
  P (Connect url key) -> yields P any (connect_to_weaviate_cloud env url key).
Proof. one_call (Connect url key). Qed.

Lemma yields_client_close : P ClientClose -> yields P any client_close.
Proof. one_call ClientClose. Qed.

Lemma yields_collections_exists env n :
  P (CollectionsExists n) -> yields P any (collections_exists env n).
Proof. one_call (CollectionsExists n). Qed.

(** The handle [collections.get] returns is for the collection asked for. *)
Lemma yields_collections_get n :
  P (CollectionsGet n) -> yields P (eq n) (collections_get n).
Proof.
  intros HP w. split; [|by intros ? [= <-]].
  by apply (extends_call P (CollectionsGet n)).
Qed.

Lemma yields_collections_create env cfg :
  P (CollectionsCreate cfg) -> yields P any (collections_create env cfg).
Proof.
  intros HP w; split; [|done]; run_M; repeat case_match; cbn;
    (apply (extends_call P (CollectionsCreate cfg)); cbn;
     [exact HP|done| |done]).
  all: intros n Hn; try done.
  apply lookup_insert_ne. congruence.
Qed.

Lemma yields_store_objects env c coll objs :
  P c -> call_collection c = Some coll ->
  yields P any (store_objects env c coll objs).
Proof.
  intros HP Hcoll w; split; [|done]; run_M; repeat case_match; cbn;
    (apply (extends_call P c); cbn; [exact HP|done| |done]).
  all: intros n Hn; try done.
  apply lookup_insert_ne. congruence.
Qed.

Lemma yields_batch_loop env items :
  P Uuid4 -> forall objs ids, yields P any (batch_loop env items objs ids).
Proof.
  intros HP. induction items as [|[text v] items IH]; intros objs ids.
  - by apply yields_ret.
  - cbn [batch_loop]. eapply yields_bind; [by apply yields_uuid4|].
    intros a _. apply IH.
Qed.

End Yields.

Lemma extends_mono (P Q : call -> Prop) w w' :
  (forall c, P c -> Q c) -> extends P w w' -> extends Q w w'.
Proof.
  intros HPQ (t & E & HP & C & L). exists t. split; [done|].
  split; [|done]. eapply Forall_impl; [exact HP | exact HPQ].
Qed.

Lemma write_call_names c : write_call c -> names_TextEmbedding c.
Proof. destruct c; cbn; try done; by intros -> n [= <-]. Qed.

Lemma setup_call_names c : setup_call c -> names_TextEmbedding c.
Proof. destruct c; cbn; try done; by intros -> n [= <-]. Qed.

Lemma write_call_no_connection c : write_call c -> no_connection_call c.
Proof. by destruct c. Qed.

Lemma yields_targets {A} (m : M A) :
  yields names_TextEmbedding any m -> targets_only_TextEmbedding m.
Proof.
  intros Hm w. destruct (Hm w) as [(t & E & HP & C & _) _].
  rewrite (issued_app _ _ _ E). split; [done|].
  intros n Hn. apply C. eapply Forall_impl; [exact HP|].
  intros c Hc E'. apply Hc in E'. done.
Qed.

Lemma yields_mono {A} (P P' : call -> Prop) (Q : A -> Prop) (m : M A) :
  (forall c, P c -> P' c) -> yields P Q m -> yields P' Q m.
Proof.
  intros HP Hm w. destruct (Hm w) as [Hw Ha].
  split; [by eapply extends_mono|done].
Qed.

(** ** The calls each method is made of *)

Ltac step_yields :=
  first
    [ apply yields_encode | apply yields_encode_batch
    | apply yields_self_client | apply yields_uuid4
    | apply yields_SentenceTransformer | apply yields_connect
    | apply yields_collections_exists | apply yields_collections_create
    | apply yields_store_objects | apply yields_batch_loop
    | apply yields_print | apply yields_client_close
    | apply yields_ret | apply yields_raise
    | eapply (yields_bind _ (eq _)); [apply yields_collections_get|intros ? <-]
    | eapply (yields_bind _ any); [|intros ? _] ].

Lemma store_embedding_calls env self text text_id :
  yields write_call any (store_embedding env self text text_id).
Proof.
  unfold store_embedding, embed_text, data_insert.
  eapply (yields_bind _ any); [|intros v _].
  { eapply (yields_bind _ any); [by apply yields_encode|]. intros ? _.
    by apply yields_ret. }
  eapply (yields_bind _ any); [|intros id _].
  { destruct text_id; [by apply yields_ret | by apply yields_uuid4]. }
  repeat step_yields; done.
Qed.

Lemma batch_store_embeddings_calls env self texts :
  yields write_call any (batch_store_embeddings env self texts).
Proof.
  unfold batch_store_embeddings, data_insert_many.
  eapply (yields_bind _ any); [by apply yields_encode_batch|]. intros vs _.
  eapply (yields_bind _ any); [apply yields_self_client|]. intros ? _.
  eapply (yields_bind _ (eq _)); [by apply yields_collections_get|]. intros ? <-.
  eapply (yields_bind _ any); [by apply yields_batch_loop|]. intros [objs ids] _.
  repeat step_yields; done.
Qed.

Lemma create_schema_calls env self :
  yields setup_call any (_create_schema env self).
Proof.
  unfold _create_schema.
  eapply (yields_bind _ any); [apply yields_self_client|]. intros ? _.
  eapply (yields_bind _ any); [by apply yields_collections_exists|]. intros [] _; cbn.
  - by apply yields_print.
  - repeat step_yields; done.
Qed.

Lemma init_calls env model_name weaviate_url weaviate_api_key :
  yields setup_call any
    (__init__ env model_name weaviate_url weaviate_api_key).
Proof.
  unfold __init__. cbv zeta.
  eapply (yields_bind _ any); [by apply yields_SentenceTransformer|]. intros m _.
  eapply (yields_bind _ any); [|intros self _].
  { repeat case_match; repeat step_yields; done. }
  eapply (yields_bind _ any); [apply create_schema_calls|]. intros ? _.
  by apply yields_ret.
Qed.

(** ** Construction *)

Lemma create_schema_ok env self w w' :
  _create_schema env self w = (Ok tt, w') ->
  is_Some (client self) /\
  is_Some (collections w' !! "TextEmbedding") /\
  live w' = live w.
Proof.
  run_M. destruct (client self) as [c|]; [|done].
  destruct (rejects env (CollectionsExists "TextEmbedding")); [done|].
  cbn. destruct (collections w !! "TextEmbedding") as [col|] eqn:Hcol; cbn.
  - intros [= <-]. cbn. eauto.
  - destruct (rejects env (CollectionsCreate TextEmbedding_config));
      cbn; [done|]. rewrite Hcol. cbn. intros [= <-]. cbn.
    rewrite lookup_insert_eq. eauto.
Qed.

(** An embedder that [__init__] returns holds a client, the collection
    exists, and one more connection is live. *)
Lemma init_ok env model_name weaviate_url weaviate_api_key w self w' :
  __init__ env model_name weaviate_url weaviate_api_key w = (Ok self, w') ->
  is_Some (client self) /\
  is_Some (collections w' !! "TextEmbedding") /\
  live w' = S (live w).
Proof.
  unfold __init__. cbv zeta.
  unfold SentenceTransformer, connect_to_weaviate_cloud, print, emit, raise,
    get_world, set_live, mbind, M_bind, mret, M_ret.
  cbn beta iota zeta. intros H.
  repeat case_match; simplify_eq.
  all: match goal with
       | H : _create_schema _ _ _ = (Ok ?u, _) |- _ =>
           destruct u; apply create_schema_ok in H; cbn in H;
           destruct H as (Hc & Hcol & Hlive)
       end.
  all: first [ by destruct Hc as [? [=]] | by rewrite Hlive ].
Qed.

(** X2: with an endpoint and a key that are true, a refused connection ends
    construction at once: [ConfigurationError], no request about collections
    or data, no connection held. *)
Lemma init_connection_refused env model_name weaviate_url weaviate_api_key
    w url key :
  model_loads env (default default_model_name model_name) = true ->
  truthy (default default_weaviate_url weaviate_url) = Some url ->
  truthy (default default_weaviate_api_key weaviate_api_key) = Some key ->
  connects env url key = false ->
  exists w',
    __init__ env model_name weaviate_url weaviate_api_key w
      = (Raise ConfigurationError, w') /\
    issued w w' = [LoadModel (default default_model_name model_name);
                   Connect url key] /\
    live w' = live w /\ collections w' = collections w.
Proof.
  intros Hm Hu Hk Hc. unfold __init__. cbv zeta.
  unfold SentenceTransformer, connect_to_weaviate_cloud, print, emit, raise,
    get_world, set_live, mbind, M_bind, mret, M_ret.
  cbn beta iota zeta. rewrite Hm, Hu, Hk. cbn. rewrite Hc.
  eexists. split; [done|]. split; [|done].
  apply issued_app. cbn. by rewrite <- app_assoc.
Qed.

(** C1 at the input where it fails: with an endpoint or a key that is [None]
    or empty, [__init__] prints its message, leaves [self.client] unset and
    goes on to [_create_schema], which raises [AttributeError] on reading
    [self.client]. *)
Theorem init_absent_credentials env model_name weaviate_url weaviate_api_key w :
  model_loads env (default default_model_name model_name) = true ->
  truthy (default default_weaviate_url weaviate_url) = None \/
  truthy (default default_weaviate_api_key weaviate_api_key) = None ->
  exists w',
    __init__ env model_name weaviate_url weaviate_api_key w
      = (Raise (AttributeError "client"), w') /\
    issued w w' = [LoadModel (default default_model_name model_name);
                   Print MsgCloudNotWorking] /\
    live w' = live w /\ collections w' = collections w.
Proof.
  intros Hm Habs. run_M. rewrite Hm.
  destruct (truthy (default default_weaviate_url weaviate_url)) as [url|];
    destruct (truthy (default default_weaviate_api_key weaviate_api_key))
      as [key|];
    try (destruct Habs; discriminate); cbn;
    (eexists; split; [reflexivity|]; split;
     [apply issued_app; cbn; by rewrite <- app_assoc | done]).
Qed.

Lemma init_absent_credentials_witness :
  exists w',
    __init__ env_ok None (Some None) None world0
      = (Raise (AttributeError "client"), w') /\
    issued world0 w' = [LoadModel default_model_name; Print MsgCloudNotWorking].
Proof.
  destruct (init_absent_credentials env_ok None (Some None) None world0)
    as (w' & Hrun & Hcalls & _).
  - reflexivity.
  - left. reflexivity.
  - by exists w'.
Defined.

(** The error absent credentials end in is not the configuration error. *)
Lemma absent_credentials_not_reported :
  ~ absent_credentials_reported env_ok (Some None) None world0.
Proof. unfold absent_credentials_reported. vm_compute. discriminate. Qed.

(** C8, as amended: the endpoint and the key are optional arguments whose
    defaults, a cluster URL and an API key, both non-empty, are written in
    the source; constructing without them is constructing with them, and the
    first thing the constructor does after loading the model is to connect
    with them. *)
Theorem init_default_credentials env model_name w :
  exists url key,
    default_weaviate_url = Some url /\
    default_weaviate_api_key = Some key /\
    url <> "" /\ key <> "" /\
    __init__ env model_name None None w
      = __init__ env model_name (Some (Some url)) (Some (Some key)) w /\
    (model_loads env (default default_model_name model_name) = true ->
     exists t,
       issued w (__init__ env model_name None None w).2
         = [LoadModel (default default_model_name model_name);
            Connect url key] ++ t).
Proof.
  eexists _, _. split; [reflexivity|]. split; [reflexivity|].
  split; [done|]. split; [done|]. split; [reflexivity|].
  intros Hm. unfold __init__. cbv zeta.
  unfold SentenceTransformer, connect_to_weaviate_cloud, print, emit, raise,
    get_world, set_live, mbind, M_bind, mret, M_ret.
  cbn. rewrite Hm.
  match goal with |- context [connects env ?u ?k] =>
    destruct (connects env u k) end.
  - match goal with |- context [_create_schema env ?s ?w1] =>
      destruct (create_schema_calls env s w1) as [(t & E & _) _];
      destruct (_create_schema env s w1) as [[[]|e] w2]
    end; cbn in *; exists t; apply issued_app; rewrite E; cbn;
      by rewrite <- !app_assoc.
  - exists []. apply issued_app. cbn. by rewrite <- app_assoc.
Qed.

Lemma init_default_credentials_witness :
  exists url key t,
    url <> "" /\ key <> "" /\
    issued world0 (__init__ env_ok None None None world0).2
      = [LoadModel default_model_name; Connect url key] ++ t.
Proof.
  destruct (init_default_credentials env_ok None world0)
    as (url & key & _ & _ & Hu & Hk & _ & Hcalls).
  destruct (Hcalls eq_refl) as [t Ht].
  by exists url, key, t.
Defined.

(** C8, as the spec states it, fails: with no endpoint and no key supplied,
    construction succeeds where the service accepts the built-in ones. *)
Lemma construction_without_configuration :
  ~ requires_configuration env_ok world0.
Proof.
  unfold requires_configuration. vm_compute. intros [[e H] _]. discriminate H.
Qed.

(** ** The fixed collection *)

(** Once the text is encoded and the client is there, the single write
    sends its one insert, to [TextEmbedding], whatever the store answers. *)
Lemma store_embedding_inserts env self text text_id w v c :
  model_encode env (model self) text = Some v ->
  client self = Some c ->
  List.filter is_insert (issued w (store_embedding env self text text_id w).2)
  = [DataInsert "TextEmbedding"
       (record_of text (default (uuid_str env (uuids w)) text_id) v)].
Proof.
  intros Hv Hc. run_M. rewrite Hv, Hc.
  destruct text_id as [given|]; cbn;
    (destruct (collections w !! "TextEmbedding") as [col|];
     [match goal with |- context [rejects env ?k] =>
        destruct (rejects env k) end|]); cbn;
    (erewrite issued_app; [|cbn; rewrite <- !app_assoc; reflexivity]);
    reflexivity.
Qed.

(** A single write that returns has put its object at the end of
    [TextEmbedding]. *)
Lemma store_embedding_ok env self text text_id w id w' :
  store_embedding env self text text_id w = (Ok id, w') ->
  exists v col,
    model_encode env (model self) text = Some v /\
    id = default (uuid_str env (uuids w)) text_id /\
    collections w !! "TextEmbedding" = Some col /\
    collections w' !! "TextEmbedding" =
      Some {| config := config col;
              objects := objects col ++ [record_of text id v] |}.
Proof.
  run_M. destruct (model_encode env (model self) text) as [v|]; [|done].
  destruct (client self) as [c|]; [|by destruct text_id].
  destruct text_id as [given|]; cbn;
    (destruct (collections w !! "TextEmbedding") as [col|]; [|done]);
    (match goal with |- context [rejects env ?k] =>
       destruct (rejects env k) end; [done|]);
    cbn; intros [= <- <-]; exists v, col; cbn;
    by rewrite lookup_insert_eq.
Qed.

(** Once the texts are encoded and the client is there, the batch write
    sends its one [insert_many], to [TextEmbedding], whatever the store
    answers. *)
Lemma batch_store_embeddings_inserts env self texts w vs c :
  model_encode_batch env (model self) texts = Some vs ->
  client self = Some c ->
  List.filter is_insert
    (issued w (batch_store_embeddings env self texts w).2)
  = [DataInsertMany "TextEmbedding"
       (batch_objects (zip texts vs)
          (fresh_ids env (uuids w) (length (zip texts vs))))].
Proof.
  intros Hvs Hc. run_M. rewrite Hvs, Hc. cbn beta iota zeta.
  rewrite batch_loop_run. cbn [uuids trace collections live app].
  assert (E : forall n, List.filter is_insert (replicate n Uuid4) = []).
  { induction n; [done|]. cbn. done. }
  destruct (collections w !! "TextEmbedding") as [col|];
    [match goal with |- context [rejects env ?k] =>
       destruct (rejects env k) end|];
    cbn -[batch_objects fresh_ids];
    (erewrite issued_app; [|cbn; rewrite <- !app_assoc; reflexivity]);
    cbn; by rewrite List.filter_app, E.
Qed.

(** A batch write that returns has put its objects, one per identifier
    returned, at the end of [TextEmbedding]. *)
Lemma batch_store_embeddings_ok env self texts w ids w' :
  batch_store_embeddings env self texts w = (Ok ids, w') ->
  exists vs col,
    model_encode_batch env (model self) texts = Some vs /\
    ids = fresh_ids env (uuids w) (length (zip texts vs)) /\
    collections w !! "TextEmbedding" = Some col /\
    collections w' !! "TextEmbedding" =
      Some {| config := config col;
              objects := objects col ++ batch_objects (zip texts vs) ids |}.
Proof.
  run_M. destruct (model_encode_batch env (model self) texts) as [vs|]; [|done].
  destruct (client self) as [c|]; [|done]. cbn beta iota zeta.
  rewrite batch_loop_run. cbn [uuids trace collections live app].
  destruct (collections w !! "TextEmbedding") as [col|]; [|done].
  match goal with |- context [rejects env ?k] =>
    destruct (rejects env k) end; [done|].
  cbn. intros [= <- <-]. exists vs, col. cbn.
  by rewrite lookup_insert_eq.
Qed.

(** C10: an embedder that [__init__] returns finds the collection
    [TextEmbedding] in the store.  Construction, the single write and the
    batch write name no other collection in any call, whatever the outcome,
    and leave every other collection of the store untouched.  Each write
    that gets past the model with a client sends exactly one insert, and
    sends it to [TextEmbedding]; each write that returns has appended its
    objects, the text under the returned identifier, to the objects of
    [TextEmbedding]. *)
Theorem fixed_collection env :
  (forall model_name weaviate_url weaviate_api_key w self w',
     __init__ env model_name weaviate_url weaviate_api_key w = (Ok self, w') ->
     is_Some (collections w' !! "TextEmbedding")) /\
  (forall model_name weaviate_url weaviate_api_key,
     targets_only_TextEmbedding
       (__init__ env model_name weaviate_url weaviate_api_key)) /\
  (forall self text text_id,
     targets_only_TextEmbedding (store_embedding env self text text_id)) /\
  (forall self texts,
     targets_only_TextEmbedding (batch_store_embeddings env self texts)) /\
  (forall self text text_id w v c,
     model_encode env (model self) text = Some v ->
     client self = Some c ->
     exists o,
       List.filter is_insert
         (issued w (store_embedding env self text text_id w).2)
       = [DataInsert "TextEmbedding" o] /\
       obj_properties o !! "text" = Some text) /\
  (forall self text text_id w id w',
     store_embedding env self text text_id w = (Ok id, w') ->
     exists o col,
       collections w !! "TextEmbedding" = Some col /\
       collections w' !! "TextEmbedding" =
         Some {| config := config col; objects := objects col ++ [o] |} /\
       obj_properties o !! "text" = Some text /\
       obj_properties o !! "text_id" = Some id) /\
  (forall self texts w vs c,
     model_encode_batch env (model self) texts = Some vs ->
     client self = Some c ->
     exists objs,
       List.filter is_insert
         (issued w (batch_store_embeddings env self texts w).2)
       = [DataInsertMany "TextEmbedding" objs] /\
       length objs = length texts `min` length vs) /\
  (forall self texts w ids w',
     batch_store_embeddings env self texts w = (Ok ids, w') ->
     exists objs col,
       collections w !! "TextEmbedding" = Some col /\
       collections w' !! "TextEmbedding" =
         Some {| config := config col; objects := objects col ++ objs |} /\
       length objs = length ids /\
       forall i o, objs !! i = Some o ->
         obj_properties o !! "text" = texts !! i /\
         obj_properties o !! "text_id" = ids !! i).
Proof.
  split; [|split; [|split; [|split; [|split; [|split; [|split]]]]]].
  - intros ? ? ? ? ? ? H. by apply init_ok in H as (_ & ? & _).
  - intros. apply yields_targets.
    eapply yields_mono; [exact setup_call_names | apply init_calls].
  - intros. apply yields_targets.
    eapply yields_mono; [exact write_call_names | apply store_embedding_calls].
  - intros. apply yields_targets.
    eapply yields_mono;
      [exact write_call_names | apply batch_store_embeddings_calls].
  - intros self text text_id w v c Hv Hc. eexists. split.
    + by eapply store_embedding_inserts.
    + apply record_of_text.
  - intros self text text_id w id w' Hrun.
    apply store_embedding_ok in Hrun as (v & col & _ & _ & Hcol & Hcol').
    exists (record_of text id v), col. by repeat split.
  - intros self texts w vs c Hvs Hc. eexists. split.
    + by eapply batch_store_embeddings_inserts.
    + unfold batch_objects.
      rewrite !length_zip_with, fresh_ids_length. lia.
  - intros self texts w ids w' Hrun.
    apply batch_store_embeddings_ok in Hrun
      as (vs & col & _ & Hids & Hcol & Hcol').
    exists (batch_objects (zip texts vs) ids), col.
    split; [done|]. split; [done|]. split.
    + unfold batch_objects. rewrite Hids.
      rewrite !length_zip_with, !fresh_ids_length. lia.
    + intros i o Ho.
      apply batch_objects_lookup in Ho as (text & v & id & Ht & _ & Hid & ->).
      by rewrite record_of_text, record_of_text_id, Ht, Hid.
Qed.

Lemma fixed_collection_witness :
  is_Some (collections world_ready !! "TextEmbedding") /\
  Forall names_TextEmbedding
    (issued world_ready
       (store_embedding env_ok embedder_ok "hello" None world_ready).2) /\
  (exists o,
     List.filter is_insert
       (issued world_ready
          (store_embedding env_ok embedder_ok "hello" None world_ready).2)
     = [DataInsert "TextEmbedding" o]) /\
  (exists objs,
     List.filter is_insert
       (issued world_ready
          (batch_store_embeddings env_ok embedder_ok ["a"; "b"]
             world_ready).2)
     = [DataInsertMany "TextEmbedding" objs] /\
     length objs = 2).
Proof.
  destruct (fixed_collection env_ok)
    as (Hinit & _ & Hstore & _ & Hsingle & _ & Hbatch & _).
  split; [|split; [|split]].
  - apply (Hinit None None None world0 embedder_ok world_ready).
    reflexivity.
  - apply (Hstore embedder_ok "hello" None world_ready).
  - destruct (Hsingle embedder_ok "hello" None world_ready
                (toy_vector "hello")
                "https://osvcpzz6sjaaloedhjbha.c0.europe-west3.gcp.weaviate.cloud"
                eq_refl eq_refl) as (o & Ho & _).
    by exists o.
  - apply (Hbatch embedder_ok ["a"; "b"] world_ready
             (toy_vector <$> ["a"; "b"])
             "https://osvcpzz6sjaaloedhjbha.c0.europe-west3.gcp.weaviate.cloud"
             eq_refl eq_refl).
Defined.

(** ** The session of the script *)

Lemma close_run self w c :
  client self = Some c ->
  close self w =
  (Ok tt, {| collections := collections w; live := pred (live w);
             uuids := uuids w; trace := trace w ++ [ClientClose] |}).
Proof. intros Hc. run_M. by rewrite Hc. Qed.

Lemma write_calls_no_close (t : list call) :
  Forall write_call t -> List.filter is_close t = [].
Proof.
  induction 1 as [|c t Hc _ IH]; [done|]. cbn. by destruct c.
Qed.

(** X1: once [__init__] has returned, the script releases the connection
    exactly once on every exit, whether the writes succeed or raise: the last
    two things it does are to close the client and to say so, nothing closes
    it before, and the connection construction acquired is live no more. *)
Lemma main_closes_once env w self w1 :
  __init__ env None None None w = (Ok self, w1) ->
  exists t,
    issued w1 (main env w).2 = t ++ [ClientClose; Print MsgConnectionClosed] /\
    List.filter is_close t = [] /\
    live (main env w).2 = live w.
Proof.
  intros Hinit. destruct (init_ok _ _ _ _ _ _ _ Hinit) as ([c Hc] & _ & Hlive).
  unfold main, main_try. rewrite Hinit.
  match goal with |- context [?body w1] =>
    assert (Hbody : yields write_call any body)
  end.
  { eapply (yields_bind _ any); [apply store_embedding_calls|]. intros ? _.
    eapply (yields_bind _ any); [apply batch_store_embeddings_calls|].
    intros ? _.
    eapply (yields_bind _ any); [by apply yields_print|]. intros ? _.
    by apply yields_print. }
  destruct (Hbody w1) as [(t & E & Ht & _ & L) _].
  match goal with |- context [?body w1] => destruct (body w1) as [r w2] end.
  cbn in E, L. unfold main_finally.
  unfold mbind, M_bind. rewrite (close_run _ _ c Hc). unfold print, emit. cbn.
  exists t. split; [|split].
  - apply issued_app. rewrite E. by rewrite <- !app_assoc.
  - by apply write_calls_no_close.
  - rewrite L, Hlive; [done|].
    eapply Forall_impl; [exact Ht | exact write_call_no_connection].
Qed.

(** C3 at the input where it fails: the service accepts the connection and
    refuses to create the collection.  [__init__] raises after connecting,
    the variable [embedder] is still [None] in the [finally] block, and the
    script ends without closing: the connection stays live. *)
Theorem main_leaks_connection env w url key :
  default_weaviate_url = Some url ->
  default_weaviate_api_key = Some key ->
  model_loads env default_model_name = true ->
  connects env url key = true ->
  rejects env (CollectionsExists "TextEmbedding") = false ->
  collections w !! "TextEmbedding" = None ->
  rejects env (CollectionsCreate TextEmbedding_config) = true ->
  exists w',
    main env w = (Raise SchemaError, w') /\
    issued w w' = [LoadModel default_model_name;
                   Connect url key;
                   CollectionsExists "TextEmbedding";
                   CollectionsCreate TextEmbedding_config] /\
    live w' = S (live w).
Proof.
  intros [= <-] [= <-] Hm Hc Hex Hcol Hcr.
  unfold main, main_try, main_finally. run_M. cbn.
  rewrite Hm, Hc. cbn. run_M.
  rewrite Hex. cbn. rewrite Hcol. cbn. rewrite Hcr, Hcol. cbn.
  eexists. split; [reflexivity|]. split; [|done].
  apply issued_app. cbn. by rewrite <- !app_assoc.
Qed.

Lemma main_leaks_connection_witness :
  exists w',
    main env_create_denied world0 = (Raise SchemaError, w') /\
    List.filter is_close (issued world0 w') = [] /\
    live w' = 1.
Proof.
  destruct (main_leaks_connection env_create_denied world0
              "https://osvcpzz6sjaaloedhjbha.c0.europe-west3.gcp.weaviate.cloud"
              "N2plUjYzemxTVHhXY1poNl9SZzA2bisxdjZQYTlPTTJvUEI2L0dlVkFEN1d1bHJwOTR1bmFNZTBtRHFNPV92MjAw")
    as (w' & Hrun & Hcalls & Hlive); try reflexivity.
  exists w'. split; [exact Hrun|]. by rewrite Hcalls.
Defined.

(** The release does not run on every exit path. *)
Lemma main_does_not_release :
  ~ main_releases env_create_denied world0.
Proof. unfold main_releases. vm_compute. discriminate. Qed.

(** Where everything works the script stores five texts and releases the
    connection. *)
Example main_ok :
  (main env_ok world0).1 = Ok tt /\
  live (main env_ok world0).2 = 0 /\
  List.filter is_close (trace (main env_ok world0).2) = [ClientClose] /\
  (length ∘ objects <$> collections (main env_ok world0).2 !! "TextEmbedding")
    = Some 5.
Proof. vm_compute. done. Qed.

(** * Further properties of the methods *)

Lemma env_ok_ids_inj : Inj (=) (=) (uuid_str env_ok).
Proof.
  intros n m E. cbn in E. apply (inj (String.append "id-")) in E.
  by apply (inj pretty) in E.
Qed.

Lemma main_closes_once_witness :
  exists t,
    issued world_ready (main env_ok world0).2
      = t ++ [ClientClose; Print MsgConnectionClosed] /\
    List.filter is_close t = [] /\
    live (main env_ok world0).2 = 0.
Proof.
  apply (main_closes_once env_ok world0 embedder_ok world_ready).
  reflexivity.
Defined.

Lemma init_connection_refused_witness :
  exists w',
    __init__ env_no_connection None None None world0
      = (Raise ConfigurationError, w') /\
    live w' = 0.
Proof.
  destruct (init_connection_refused env_no_connection None None None world0
              "https://osvcpzz6sjaaloedhjbha.c0.europe-west3.gcp.weaviate.cloud"
              "N2plUjYzemxTVHhXY1poNl9SZzA2bisxdjZQYTlPTTJvUEI2L0dlVkFEN1d1bHJwOTR1bmFNZTBtRHFNPV92MjAw")
    as (w' & Hrun & _ & Hlive & _); try reflexivity.
  by exists w'.
Defined.

(** ** Construction, path by path *)

(** X4: the model is loaded first.  When it cannot be loaded, [__init__]
    raises the model's error having done nothing else: no connection is
    attempted and the store is not asked anything. *)
Theorem init_model_load_fails env model_name weaviate_url weaviate_api_key w :
  model_loads env (default default_model_name model_name) = false ->
  exists w',
    __init__ env model_name weaviate_url weaviate_api_key w
      = (Raise ModelError, w') /\
    issued w w' = [LoadModel (default default_model_name model_name)] /\
    live w' = live w /\ collections w' = collections w.
Proof.
  intros Hm. unfold __init__. cbv zeta.
  unfold SentenceTransformer, emit, raise, mbind, M_bind, mret, M_ret.
  cbn beta iota zeta. rewrite Hm.
  eexists. split; [reflexivity|]. split; [by apply issued_app|done].
Qed.

Lemma init_model_load_fails_witness :
  exists w',
    __init__ env_model_missing (Some "no-such-model") None None world0
      = (Raise ModelError, w') /\
    issued world0 w' = [LoadModel "no-such-model"].
Proof.
  destruct (init_model_load_fails env_model_missing (Some "no-such-model")
              None None world0) as (w' & Hrun & Hcalls & _).
  - reflexivity.
  - by exists w'.
Defined.

(** The successful construction, call by call. *)
Lemma init_run env model_name weaviate_url weaviate_api_key w url key :
  model_loads env (default default_model_name model_name) = true ->
  truthy (default default_weaviate_url weaviate_url) = Some url ->
  truthy (default default_weaviate_api_key weaviate_api_key) = Some key ->
  connects env url key = true ->
  rejects env (CollectionsExists "TextEmbedding") = false ->
  rejects env (CollectionsCreate TextEmbedding_config) = false ->
  __init__ env model_name weaviate_url weaviate_api_key w =
  (Ok {| model := default default_model_name model_name;
         client := Some url |},
   {| collections :=
        match collections w !! "TextEmbedding" with
        | Some _ => collections w
        | None => <["TextEmbedding" :=
                      {| config := TextEmbedding_config; objects := [] |}]>
                    (collections w)
        end;
      live := S (live w);
      uuids := uuids w;
      trace := trace w
                 ++ [LoadModel (default default_model_name model_name);
                     Connect url key;
                     CollectionsExists "TextEmbedding"]
                 ++ match collections w !! "TextEmbedding" with
                    | Some _ => [Print MsgCollectionExists]
                    | None => [CollectionsCreate TextEmbedding_config;
                               Print MsgCreatedCollection]
                    end |}).
Proof.
  intros Hm Hu Hk Hc Hex Hcr. unfold __init__. cbv zeta.
  unfold SentenceTransformer, connect_to_weaviate_cloud, emit, raise,
    get_world, set_live, mbind, M_bind, mret, M_ret.
  cbn beta iota zeta. rewrite Hm, Hu, Hk. cbn beta iota zeta. rewrite Hc.
  cbn beta iota zeta.
  destruct (collections w !! "TextEmbedding") as [col|] eqn:Hcol.
  - erewrite create_schema_present; [|reflexivity|exact Hex|exact Hcol].
    cbn. by rewrite <- !app_assoc.
  - erewrite create_schema_absent; [|reflexivity|exact Hex|exact Hcr|exact Hcol].
    cbn. by rewrite <- !app_assoc.
Qed.

(** X5: when the model loads, the endpoint and key are true, the service
    accepts the connection and the schema requests, [__init__] returns an
    embedder holding the model name and the client, with one more connection
    live and no identifier drawn.  A collection [TextEmbedding] already in
    the store is kept with its objects and no creation is requested;
    otherwise it is created empty, once.  No other collection changes. *)
Theorem init_success env model_name weaviate_url weaviate_api_key w url key :
  model_loads env (default default_model_name model_name) = true ->
  truthy (default default_weaviate_url weaviate_url) = Some url ->
  truthy (default default_weaviate_api_key weaviate_api_key) = Some key ->
  connects env url key = true ->
  rejects env (CollectionsExists "TextEmbedding") = false ->
  rejects env (CollectionsCreate TextEmbedding_config) = false ->
  exists w',
    __init__ env model_name weaviate_url weaviate_api_key w
      = (Ok {| model := default default_model_name model_name;
               client := Some url |}, w') /\
    live w' = S (live w) /\ uuids w' = uuids w /\
    (forall n, n <> "TextEmbedding" ->
               collections w' !! n = collections w !! n) /\
    match collections w !! "TextEmbedding" with
    | Some col =>
        collections w' !! "TextEmbedding" = Some col /\
        List.filter is_create (issued w w') = []
    | None =>
        collections w' !! "TextEmbedding" =
          Some {| config := TextEmbedding_config; objects := [] |} /\
        List.filter is_create (issued w w') =
          [CollectionsCreate TextEmbedding_config]
    end.
Proof.
  intros Hm Hu Hk Hc Hex Hcr.
  pose proof (init_run env model_name weaviate_url weaviate_api_key w url key
                Hm Hu Hk Hc Hex Hcr) as Hrun.
  eexists. split; [exact Hrun|]. cbn [live uuids collections].
  split; [done|]. split; [done|]. split.
  - intros n Hn. destruct (collections w !! "TextEmbedding"); [done|].
    by rewrite lookup_insert_ne.
  - erewrite issued_app; [|reflexivity].
    destruct (collections w !! "TextEmbedding") as [col|] eqn:Hcol; cbn.
    + by rewrite Hcol.
    + by rewrite lookup_insert_eq.
Qed.

Lemma init_success_witness :
  exists w',
    __init__ env_ok None None None world_ready = (Ok embedder_ok, w') /\
    collections w' !! "TextEmbedding"
      = Some {| config := TextEmbedding_config; objects := [] |} /\
    live w' = 2.
Proof.
  destruct (init_success env_ok None None None world_ready
              "https://osvcpzz6sjaaloedhjbha.c0.europe-west3.gcp.weaviate.cloud"
              "N2plUjYzemxTVHhXY1poNl9SZzA2bisxdjZQYTlPTTJvUEI2L0dlVkFEN1d1bHJwOTR1bmFNZTBtRHFNPV92MjAw")
    as (w' & Hrun & Hlive & _ & _ & Hcase); try reflexivity.
  exists w'. split; [exact Hrun|].
  change (collections world_ready !! "TextEmbedding")
    with (Some {| config := TextEmbedding_config; objects := [] |}) in Hcase.
  destruct Hcase as [Hcol _]. split; [exact Hcol|]. by rewrite Hlive.
Defined.

(** ** What the write methods leave alone, and how they fail *)

(** X6: on every path, success or failure, the two write methods issue only
    model calls, identifier draws, the handle lookup and inserts for
    [TextEmbedding], and prints: they never connect, close, check for or
    create a collection, and the number of live connections is unchanged. *)
Theorem writes_keep_connection env self w :
  (forall text text_id,
     live (store_embedding env self text text_id w).2 = live w /\
     Forall write_call
       (issued w (store_embedding env self text text_id w).2)) /\
  (forall texts,
     live (batch_store_embeddings env self texts w).2 = live w /\
     Forall write_call (issued w (batch_store_embeddings env self texts w).2)).
Proof.
  split.
  - intros text text_id.
    destruct (store_embedding_calls env self text text_id w)
      as [(t & E & Ht & _ & L) _].
    rewrite (issued_app _ _ _ E). split; [|done].
    apply L. eapply Forall_impl; [exact Ht | exact write_call_no_connection].
  - intros texts.
    destruct (batch_store_embeddings_calls env self texts w)
      as [(t & E & Ht & _ & L) _].
    rewrite (issued_app _ _ _ E). split; [|done].
    apply L. eapply Forall_impl; [exact Ht | exact write_call_no_connection].
Qed.

(** X7: [store_embedding] does not catch or retry a failed insert.  When the
    collection is missing or the store refuses the object, it raises the
    write error after exactly one insert attempt, prints nothing and returns
    no identifier; an identifier it generated is used up all the same, and
    the store is as it was. *)
Theorem store_embedding_write_error env self text text_id w v c :
  model_encode env (model self) text = Some v ->
  client self = Some c ->
  collections w !! "TextEmbedding" = None \/
  rejects env (DataInsert "TextEmbedding"
                 (record_of text (default (uuid_str env (uuids w)) text_id) v))
    = true ->
  exists w',
    store_embedding env self text text_id w = (Raise WriteError, w') /\
    issued w w' =
      [Encode (model self) text]
        ++ match text_id with Some _ => [] | None => [Uuid4] end
        ++ [CollectionsGet "TextEmbedding";
            DataInsert "TextEmbedding"
              (record_of text (default (uuid_str env (uuids w)) text_id) v)] /\
    uuids w' = match text_id with Some _ => uuids w | None => S (uuids w) end /\
    collections w' = collections w.
Proof.
  intros Hv Hc Hfail. run_M. rewrite Hv, Hc.
  destruct text_id as [given|]; cbn in *; unfold record_of in Hfail;
    (destruct (collections w !! "TextEmbedding") as [col|];
     [destruct Hfail as [[=]|Hrej]; rewrite Hrej|]);
    (eexists; split; [reflexivity|]; split;
     [apply issued_app; cbn; by rewrite <- !app_assoc|done]).
Qed.

Lemma store_embedding_write_error_witness :
  exists w',
    store_embedding env_insert_denied embedder_ok "hello" None world_ready
      = (Raise WriteError, w') /\
    uuids w' = 1 /\ collections w' = collections world_ready.
Proof.
  destruct (store_embedding_write_error env_insert_denied embedder_ok "hello"
              None world_ready (toy_vector "hello")
              "https://osvcpzz6sjaaloedhjbha.c0.europe-west3.gcp.weaviate.cloud")
    as (w' & Hrun & _ & Hids & Hcol).
  - reflexivity.
  - reflexivity.
  - right. reflexivity.
  - by exists w'.
Defined.

(** X8: [batch_store_embeddings] sends the whole batch in one [insert_many]
    and does not fall back to single inserts.  When the collection is missing
    or the store refuses the batch, it raises the write error and returns no
    identifier, although it has drawn one per zipped text; the store is as it
    was. *)
Theorem batch_store_embeddings_write_error env self texts w vs c :
  model_encode_batch env (model self) texts = Some vs ->
  client self = Some c ->
  collections w !! "TextEmbedding" = None \/
  rejects env
    (DataInsertMany "TextEmbedding"
       (batch_objects (zip texts vs)
          (fresh_ids env (uuids w) (length (zip texts vs))))) = true ->
  exists w',
    batch_store_embeddings env self texts w = (Raise WriteError, w') /\
    List.filter is_insert (issued w w') =
      [DataInsertMany "TextEmbedding"
         (batch_objects (zip texts vs)
            (fresh_ids env (uuids w) (length (zip texts vs))))] /\
    uuids w' = uuids w + length (zip texts vs) /\
    collections w' = collections w.
Proof.
  intros Hvs Hc Hfail. run_M. rewrite Hvs, Hc. cbn beta iota zeta.
  rewrite batch_loop_run. cbn [uuids trace collections live app].
  assert (E : forall n, List.filter is_insert (replicate n Uuid4) = []).
  { induction n; [done|]. cbn. done. }
  destruct (collections w !! "TextEmbedding") as [col|];
    [destruct Hfail as [[=]|Hrej]; rewrite Hrej|];
    (eexists; split; [reflexivity|]; split; [|done];
     erewrite issued_app; [|cbn; rewrite <- !app_assoc; reflexivity];
     cbn; by rewrite List.filter_app, E).
Qed.

Lemma batch_store_embeddings_write_error_witness :
  exists w',
    batch_store_embeddings env_insert_denied embedder_ok ["a"; "b"] world_ready
      = (Raise WriteError, w') /\
    uuids w' = 2 /\ collections w' = collections world_ready.
Proof.
  destruct (batch_store_embeddings_write_error env_insert_denied embedder_ok
              ["a"; "b"] world_ready (toy_vector <$> ["a"; "b"])
              "https://osvcpzz6sjaaloedhjbha.c0.europe-west3.gcp.weaviate.cloud")
    as (w' & Hrun & _ & Hids & Hcol).
  - reflexivity.
  - reflexivity.
  - right. reflexivity.
  - by exists w'.
Defined.

(** ** Edge cases of the write methods *)

(** X9: the loop runs over [zip(texts, embeddings)].  When the model returns
    fewer rows than there are texts, the texts beyond the last row are
    dropped without an error: identifiers and stored objects number the
    shorter length, while the message printed still counts every text. *)
Theorem batch_store_embeddings_zip env self texts w vs c col :
  model_encode_batch env (model self) texts = Some vs ->
  client self = Some c ->
  collections w !! "TextEmbedding" = Some col ->
  (forall objs, rejects env (DataInsertMany "TextEmbedding" objs) = false) ->
  exists ids objs w',
    batch_store_embeddings env self texts w = (Ok ids, w') /\
    length ids = length texts `min` length vs /\
    length objs = length texts `min` length vs /\
    collections w' !! "TextEmbedding" =
      Some {| config := config col; objects := objects col ++ objs |} /\
    (forall i o, objs !! i = Some o ->
       obj_properties o !! "text" = texts !! i /\
       Some (obj_vector o) = vs !! i) /\
    last (issued w w') = Some (Print (MsgStoredBatch (length texts))).
Proof.
  intros Hvs Hc Hcol Hrej.
  pose proof (batch_store_embeddings_run env self texts w vs c col
                Hvs Hc Hcol (Hrej _)) as Hrun.
  cbv zeta in Hrun.
  eexists _, (batch_objects (zip texts vs)
                (fresh_ids env (uuids w) (length (zip texts vs)))), _.
  split; [exact Hrun|].
  split; [by rewrite fresh_ids_length, length_zip_with|].
  split.
  { unfold batch_objects. rewrite !length_zip_with, fresh_ids_length. lia. }
  split; [cbn; by rewrite lookup_insert_eq|].
  split.
  - intros i o Ho.
    apply batch_objects_lookup in Ho as (text & v & id & Ht & Hv & _ & ->).
    by rewrite record_of_text, Ht, Hv.
  - erewrite issued_app; [|reflexivity].
    match goal with
    | |- last (?a ++ ?b ++ [?x; ?y]) = _ =>
        change (last (a ++ b ++ [x] ++ [y]) = Some y)
    end.
    rewrite !app_assoc. apply last_snoc.
Qed.

Lemma batch_store_embeddings_zip_witness :
  exists (ids : list string) w',
    batch_store_embeddings env_short_model embedder_ok ["a"; "b"; "c"]
      world_ready = (Ok ids, w') /\
    length ids = 1 /\
    last (issued world_ready w') = Some (Print (MsgStoredBatch 3)).
Proof.
  destruct (batch_store_embeddings_zip env_short_model embedder_ok
              ["a"; "b"; "c"] world_ready [toy_vector "a"]
              "https://osvcpzz6sjaaloedhjbha.c0.europe-west3.gcp.weaviate.cloud"
              {| config := TextEmbedding_config; objects := [] |})
    as (ids & objs & w' & Hrun & Hlen & _ & _ & _ & Hlast).
  - reflexivity.
  - reflexivity.
  - vm_compute. reflexivity.
  - reflexivity.
  - by exists ids, w'.
Defined.

(** X10: identifiers stay distinct across calls.  A single store without an
    id followed by a batch store yields an identifier and a list of
    identifiers that are all different, and the collection gains the single
    object followed by the batch objects, in that order. *)
Theorem store_then_batch_fresh env self text texts w v vs c col :
  model_encode env (model self) text = Some v ->
  model_encode_batch env (model self) texts = Some vs ->
  Inj (=) (=) (uuid_str env) ->
  client self = Some c ->
  collections w !! "TextEmbedding" = Some col ->
  (forall k, is_insert k = true -> rejects env k = false) ->
  exists id ids w1 w2,
    store_embedding env self text None w = (Ok id, w1) /\
    batch_store_embeddings env self texts w1 = (Ok ids, w2) /\
    NoDup (id :: ids) /\
    collections w2 !! "TextEmbedding" =
      Some {| config := config col;
              objects := objects col
                           ++ record_of text id v
                           :: batch_objects (zip texts vs) ids |}.
Proof.
  intros Hv Hvs Hinj Hc Hcol Hrej.
  assert (Hrej1 : forall o, rejects env (DataInsert "TextEmbedding" o) = false)
    by (intros o; by apply Hrej).
  assert (Hrej2 : forall objs,
            rejects env (DataInsertMany "TextEmbedding" objs) = false)
    by (intros objs; by apply Hrej).
  pose proof (store_embedding_run env self text None w v c col
                Hv Hc Hcol (Hrej1 _)) as Hrun1.
  cbv zeta in Hrun1. cbn [default] in Hrun1.
  eexists _, _, _, _. split; [exact Hrun1|].
  match type of Hrun1 with _ = (_, ?w1) => set (w1' := w1) end.
  assert (Hcol1 : collections w1' !! "TextEmbedding"
                  = Some {| config := config col;
                            objects := objects col
                                         ++ [record_of text
                                               (uuid_str env (uuids w)) v] |}).
  { cbn. by rewrite lookup_insert_eq. }
  pose proof (batch_store_embeddings_run env self texts w1' vs c _
                Hvs Hc Hcol1 (Hrej2 _)) as Hrun2.
  cbv zeta in Hrun2. split; [exact Hrun2|]. split.
  - change (uuids w1') with (S (uuids w)).
    rewrite <- fresh_ids_cons. by apply fresh_ids_NoDup.
  - cbn. rewrite lookup_insert_eq. cbn. by rewrite <- app_assoc.
Qed.

Lemma store_then_batch_fresh_witness :
  exists id (ids : list string) w1 w2,
    store_embedding env_ok embedder_ok "hello" None world_ready = (Ok id, w1) /\
    batch_store_embeddings env_ok embedder_ok ["a"; "b"] w1 = (Ok ids, w2) /\
    NoDup (id :: ids).
Proof.
  destruct (store_then_batch_fresh env_ok embedder_ok "hello" ["a"; "b"]
              world_ready (toy_vector "hello") (toy_vector <$> ["a"; "b"])
              "https://osvcpzz6sjaaloedhjbha.c0.europe-west3.gcp.weaviate.cloud"
              {| config := TextEmbedding_config; objects := [] |})
    as (id & ids & w1 & w2 & H1 & H2 & Hnd & _).
  - reflexivity.
  - reflexivity.
  - exact env_ok_ids_inj.
  - reflexivity.
  - vm_compute. reflexivity.
  - reflexivity.
  - by exists id, ids, w1, w2.
Defined.

(** X11: a caller-supplied id is not checked against anything.  Storing
    twice under the same id succeeds both times, draws no identifier, and
    leaves two objects with that [text_id] in the collection. *)
Theorem store_embedding_repeated_id env self text1 text2 id w v1 v2 c col :
  model_encode env (model self) text1 = Some v1 ->
  model_encode env (model self) text2 = Some v2 ->
  client self = Some c ->
  collections w !! "TextEmbedding" = Some col ->
  (forall o, rejects env (DataInsert "TextEmbedding" o) = false) ->
  exists w1 w2,
    store_embedding env self text1 (Some id) w = (Ok id, w1) /\
    store_embedding env self text2 (Some id) w1 = (Ok id, w2) /\
    uuids w2 = uuids w /\
    collections w2 !! "TextEmbedding" =
      Some {| config := config col;
              objects := objects col
                           ++ [record_of text1 id v1; record_of text2 id v2] |}.
Proof.
  intros Hv1 Hv2 Hc Hcol Hrej.
  pose proof (store_embedding_run env self text1 (Some id) w v1 c col
                Hv1 Hc Hcol (Hrej _)) as Hrun1.
  cbv zeta in Hrun1. cbn [default] in Hrun1.
  eexists _, _. split; [exact Hrun1|].
  match type of Hrun1 with _ = (_, ?w1) => set (w1' := w1) end.
  assert (Hcol1 : collections w1' !! "TextEmbedding"
                  = Some {| config := config col;
                            objects := objects col ++ [record_of text1 id v1] |}).
  { cbn. by rewrite lookup_insert_eq. }
  pose proof (store_embedding_run env self text2 (Some id) w1' v2 c _
                Hv2 Hc Hcol1 (Hrej _)) as Hrun2.
  cbv zeta in Hrun2. cbn [default] in Hrun2.
  split; [exact Hrun2|]. split; [done|].
  cbn. rewrite lookup_insert_eq. cbn. by rewrite <- app_assoc.
Qed.

Lemma store_embedding_repeated_id_witness :
  exists w1 w2,
    store_embedding env_ok embedder_ok "hello" (Some "doc-1") world_ready
      = (Ok "doc-1", w1) /\
    store_embedding env_ok embedder_ok "bye" (Some "doc-1") w1
      = (Ok "doc-1", w2) /\
    (length ∘ objects <$> collections w2 !! "TextEmbedding") = Some 2.
Proof.
  destruct (store_embedding_repeated_id env_ok embedder_ok "hello" "bye"
              "doc-1" world_ready (toy_vector "hello") (toy_vector "bye")
              "https://osvcpzz6sjaaloedhjbha.c0.europe-west3.gcp.weaviate.cloud"
              {| config := TextEmbedding_config; objects := [] |})
    as (w1 & w2 & H1 & H2 & _ & Hcol).
  - reflexivity.
  - reflexivity.
  - reflexivity.
  - vm_compute. reflexivity.
  - reflexivity.
  - exists w1, w2. split; [exact H1|]. split; [exact H2|]. by rewrite Hcol.
Defined.

(** ** After construction *)

(** X12: an embedder that [__init__] returned holds a client, so none of its
    methods can fail on the missing attribute: the two write methods never
    raise [AttributeError], whatever the model and the store do, and [close]
    always returns. *)
Theorem constructed_embedder_has_client env model_name weaviate_url
    weaviate_api_key w self w1 :
  __init__ env model_name weaviate_url weaviate_api_key w = (Ok self, w1) ->
  forall w2,
    (forall text text_id a,
       (store_embedding env self text text_id w2).1
         <> Raise (AttributeError a)) /\
    (forall texts a,
       (batch_store_embeddings env self texts w2).1
         <> Raise (AttributeError a)) /\
    (close self w2).1 = Ok tt.
Proof.
  intros Hinit w2.
  destruct (init_ok _ _ _ _ _ _ _ Hinit) as ([c Hc] & _ & _). clear Hinit.
  split; [|split].
  - intros text text_id a. run_M. rewrite Hc.
    repeat (case_match; simplify_eq; cbn in * ); try done.
  - intros texts a. run_M. rewrite Hc.
    destruct (model_encode_batch env (model self) texts) as [vs|];
      cbn beta iota zeta; [|done].
    rewrite batch_loop_run. cbn [uuids trace collections live app].
    repeat (case_match; simplify_eq; cbn in * ); try done.
  - by rewrite (close_run _ _ c Hc).
Qed.

Lemma constructed_embedder_has_client_witness :
  (store_embedding env_ok embedder_ok "hello" None world0).1
    <> Raise (AttributeError "client") /\
  (close embedder_ok world0).1 = Ok tt.
Proof.
  destruct (constructed_embedder_has_client env_ok None None None world0
              embedder_ok world_ready eq_refl world0) as (Hs & _ & Hc).
  split; [apply Hs | exact Hc].
Defined.

(** ** The script, end to end *)

(** X13: the first failure ends the script's work.  When the model cannot
    encode the test sentence, the script raises the model's error without
    attempting the batch: after construction it issues the one encode call,
    then closes the client and says so; nothing is stored and no connection
    is left. *)
Theorem main_model_failure env w self w1 :
  __init__ env None None None w = (Ok self, w1) ->
  model_encode env (model self) "This is a test sentence." = None ->
  exists w',
    main env w = (Raise ModelError, w') /\
    issued w1 w' = [Encode (model self) "This is a test sentence.";
                    ClientClose;
                    Print MsgConnectionClosed] /\
    collections w' = collections w1 /\
    live w' = live w.
Proof.
  intros Hinit Hv.
  destruct (init_ok _ _ _ _ _ _ _ Hinit) as ([c Hc] & _ & Hlive).
  unfold main, main_try. rewrite Hinit. clear Hinit.
  unfold main_finally. run_M. rewrite Hv, Hc. cbn.
  eexists. split; [reflexivity|]. split; [|split; [done|cbn; lia]].
  apply issued_app. cbn. by rewrite <- !app_assoc.
Qed.

Lemma main_model_failure_witness :
  exists w',
    main env_model_down world0 = (Raise ModelError, w') /\
    live w' = 0.
Proof.
  destruct (main_model_failure env_model_down world0 embedder_ok world_ready)
    as (w' & Hrun & _ & _ & Hlive).
  - reflexivity.
  - reflexivity.
  - by exists w'.
Defined.

(** X14: where the model loads and encodes, and the service accepts the
    built-in endpoint and key and every request, the script returns
    normally, draws five identifiers and releases its connection; the
    collection ends with what it held before followed by five new objects,
    the test sentence first and the four sample texts after it in their
    order, each under its own identifier. *)
Theorem main_stores_all env w url key v vs :
  default_weaviate_url = Some url ->
  default_weaviate_api_key = Some key ->
  model_loads env default_model_name = true ->
  connects env url key = true ->
  (forall k, rejects env k = false) ->
  model_encode env default_model_name "This is a test sentence." = Some v ->
  model_encode_batch env default_model_name sample_texts = Some vs ->
  length vs = length sample_texts ->
  exists w' col',
    main env w = (Ok tt, w') /\
    live w' = live w /\
    uuids w' = uuids w + 5 /\
    collections w' !! "TextEmbedding" = Some col' /\
    objects col' =
      from_option objects [] (collections w !! "TextEmbedding")
        ++ record_of "This is a test sentence." (uuid_str env (uuids w)) v
        :: batch_objects (zip sample_texts vs)
             (fresh_ids env (S (uuids w)) 4).
Proof.
  intros [= <-] [= <-] Hm Hc Hrej Hv Hvs Hlen.
  pose proof (init_run env None None None w _ _
                Hm eq_refl eq_refl Hc (Hrej _) (Hrej _)) as Hinit.
  cbn [default] in Hinit.
  match type of Hinit with _ = (Ok ?s, ?w1) =>
    set (self := s) in *; set (w1' := w1) in * end.
  assert (exists col1,
            collections w1' !! "TextEmbedding" = Some col1 /\
            objects col1
              = from_option objects [] (collections w !! "TextEmbedding"))
    as (col1 & Hcol1 & Hobjs1).
  { subst w1'. cbn.
    destruct (collections w !! "TextEmbedding") as [col|] eqn:Hcol.
    - exists col. by rewrite Hcol.
    - eexists. by rewrite lookup_insert_eq. }
  pose proof (store_embedding_run env self "This is a test sentence." None
                w1' v _ col1 Hv eq_refl Hcol1 (Hrej _)) as Hrun1.
  cbv zeta in Hrun1. cbn [default] in Hrun1.
  match type of Hrun1 with _ = (_, ?w2) => set (w2' := w2) in * end.
  assert (Hcol2 : collections w2' !! "TextEmbedding"
                  = Some {| config := config col1;
                            objects := objects col1
                              ++ [record_of "This is a test sentence."
                                    (uuid_str env (uuids w1')) v] |}).
  { subst w2'. cbn [collections]. by rewrite lookup_insert_eq. }
  pose proof (batch_store_embeddings_run env self sample_texts w2' vs _ _
                Hvs eq_refl Hcol2 (Hrej _)) as Hrun2.
  cbv zeta in Hrun2.
  assert (Hn : length (zip sample_texts vs) = 4).
  { rewrite length_zip_with, Hlen. reflexivity. }
  rewrite Hn in Hrun2.
  unfold main, main_try. rewrite Hinit.
  unfold mbind at 1 2 3, M_bind. rewrite Hrun1, Hrun2.
  unfold main_finally, mbind, M_bind.
  unfold print, emit. cbn beta iota zeta.
  erewrite close_run by reflexivity. cbn beta iota zeta.
  eexists _, _. split; [reflexivity|].
  subst w2' w1'. cbn [live uuids collections pred].
  split; [done|]. split; [lia|].
  split; [by rewrite lookup_insert_eq|].
  cbn [objects]. by rewrite <- app_assoc, Hobjs1.
Qed.

Lemma main_stores_all_witness :
  exists w' col',
    main env_ok world0 = (Ok tt, w') /\
    live w' = 0 /\
    collections w' !! "TextEmbedding" = Some col' /\
    length (objects col') = 5.
Proof.
  destruct (main_stores_all env_ok world0
              "https://osvcpzz6sjaaloedhjbha.c0.europe-west3.gcp.weaviate.cloud"
              "N2plUjYzemxTVHhXY1poNl9SZzA2bisxdjZQYTlPTTJvUEI2L0dlVkFEN1d1bHJwOTR1bmFNZTBtRHFNPV92MjAw"
              (toy_vector "This is a test sentence.")
              (toy_vector <$> sample_texts))
    as (w' & col' & Hrun & Hlive & _ & Hcol & Hobjs); try reflexivity.
  exists w', col'. split; [exact Hrun|]. split; [exact Hlive|].
  split; [exact Hcol|]. by rewrite Hobjs.
Defined.
